(** * Clinical decision workflow of the oncology research agent

    A shallow embedding of the decision logic of the agents in
    [src/agents] and of the persistence layer in [src/memory].

    Python floats that the code only compares with literal thresholds are
    modelled as rationals [Q]; the literals of the code are written as the
    exact fractions they denote ([0.01] is [1#100]).  Python dictionaries
    with a fixed set of keys are modelled as records; optional values
    ([None]) as [option]. *)

From Stdlib Require Import QArith Qround Qabs ZArith String Ascii List Bool Arith Lia Lqa.
Set Warnings "-register-all".
Import ListNotations.
Open Scope string_scope.

(** Strict comparison of two Python floats, [a < b]. *)
Definition qltb (a b : Q) : bool := negb (Qle_bool b a).

(* ------------------------------------------------------------------ *)
(** ** [src/agents/clinical_reasoner.py] *)
Module ClinicalReasoner.

(** The evidence dictionary built by [OncologySupervisor.process_query]:
    the four keys are always present; the medians may be [None]. *)
Record evidence := mkEvidence {
  p_value : Q;
  total_papers : nat;
  median_pembrolizumab : option Q;
  median_nivolumab : option Q
}.

(** Python [x or 0] on a float that may be [None] ([0.0 or 0] is [0]). *)
Definition or_zero (x : option Q) : Q :=
  match x with None => 0 | Some v => v end.

(** The strength of recommendation, as an enumeration; the code stores
    the label given by [strength_label]. *)
Inductive strength := Strong | Moderate | Weak.

Definition strength_label (s : strength) : string :=
  match s with
  | Strong => "Strong recommendation"
  | Moderate => "Moderate recommendation"
  | Weak => "Weak recommendation"
  end.

Record recommendation := mkRecommendation {
  recommendation_text : string;
  confidence_score : Q;
  strength_of_recommendation : strength;
  grade : string
}.

Definition RECOMMENDATION_TEXT : string :=
  "Pembrolizumab is preferred over nivolumab as first-line therapy in advanced melanoma".

(** The tiering of [generate_recommendation], on the three numbers it
    reads from the evidence.  (The [rationale] field is a formatted string
    for display and is left out.) *)
Definition score (p : Q) (papers_found : nat) (median_os_diff : Q) : recommendation :=
  if qltb p (1#100) && (10 <=? papers_found)%nat && Qle_bool 12 median_os_diff then
    mkRecommendation RECOMMENDATION_TEXT (94#100) Strong "1A"
  else if qltb p (5#100) && (8 <=? papers_found)%nat then
    mkRecommendation RECOMMENDATION_TEXT (87#100) Moderate "1B"
  else
    mkRecommendation RECOMMENDATION_TEXT (62#100) Weak "2C".

Definition median_os_diff (e : evidence) : Q :=
  or_zero (median_pembrolizumab e) - or_zero (median_nivolumab e).

Definition generate_recommendation (e : evidence) : recommendation :=
  score (p_value e) (total_papers e) (median_os_diff e).

End ClinicalReasoner.

(* ------------------------------------------------------------------ *)
(** ** [src/agents/doctor_agent.py] *)
Module DoctorAgent.

Inductive decision := Approve | Modify.

Definition decision_label (d : decision) : string :=
  match d with Approve => "approve" | Modify => "modify" end.

Definition COMMENT_LOW_CONFIDENCE : string :=
  "Confidence too low. Recommend reducing pembrolizumab dose or adding corticosteroid prophylaxis.".
Definition COMMENT_WEAK_EVIDENCE : string :=
  "Evidence not strong enough for first-line recommendation. Suggest clinical trial enrollment.".
Definition COMMENT_APPROVE : string :=
  "Strong evidence and acceptable safety profile. Proceed with recommendation.".

(** The literal as the source file has it (its UTF-8 bytes: the dash was
    stored as the three characters U+00E2 U+20AC U+201C). *)
Definition DOCTOR_NAME : string := "Dr. Sarah Johnson, MD â€“ Medical Oncology".
Definition TIMESTAMP : string := "2025-11-27 14:32".

(** The returned review dictionary; [confidence_score] holds
    [round(confidence, 3)], kept here as the confidence itself. *)
Record review := mkReview {
  doctor_decision : decision;
  doctor_name : string;
  timestamp : string;
  review_confidence : Q;
  comment : string;
  final_recommendation : string
}.

(** [review_recommendation] on the dictionary
    [{"recommendation": text, "confidence_score": confidence, "p_value": p}]. *)
Definition review_recommendation (text : string) (confidence p : Q) : review :=
  let '(d, c) :=
    if qltb confidence (70#100) then (Modify, COMMENT_LOW_CONFIDENCE)
    else if qltb (5#100) p then (Modify, COMMENT_WEAK_EVIDENCE)
    else (Approve, COMMENT_APPROVE) in
  mkReview d DOCTOR_NAME TIMESTAMP confidence c
    (match d with Approve => text | Modify => c end).

End DoctorAgent.

(* ------------------------------------------------------------------ *)
(** ** Python values

    The values that flow through result dictionaries and that the memory
    service serializes.  Floats are the finite ones, as rationals. *)


Inductive pykey := KStr (s : string) | KInt (z : Z).

Inductive pyval :=
| PNone
| PBool (b : bool)
| PInt (z : Z)
| PFloat (q : Q)
| PStr (s : string)
| PList (l : list pyval)
| PTuple (l : list pyval)
| PDict (d : list (pykey * pyval)).

Definition pykey_eqb (a b : pykey) : bool :=
  match a, b with
  | KStr x, KStr y => String.eqb x y
  | KInt x, KInt y => Z.eqb x y
  | _, _ => false
  end.

(** A dictionary as the association list of its items in insertion
    order. *)
Definition dict := list (pykey * pyval).

(** [d[k] = v]: an existing key keeps its position and takes the new
    value; a new key is appended. *)
Fixpoint dict_set (d : dict) (k : pykey) (v : pyval) : dict :=
  match d with
  | [] => [(k, v)]
  | (k', v') :: d' =>
      if pykey_eqb k k' then (k', v) :: d' else (k', v') :: dict_set d' k v
  end.

(** [{**d}] applied on top of [acc]: each item of [d] set in order. *)
Definition dict_update (acc d : dict) : dict :=
  fold_left (fun a kv => dict_set a (fst kv) (snd kv)) d acc.

(** [d.get(k)] on a dictionary. *)
Fixpoint dict_get (d : dict) (k : pykey) : option pyval :=
  match d with
  | [] => None
  | (k', v) :: t => if pykey_eqb k k' then Some v else dict_get t k
  end.

(** Python [f"{n}"] on a non-negative [int]. *)
Fixpoint digits_aux (fuel n : nat) (acc : string) : string :=
  match fuel with
  | O => acc
  | S f =>
      let acc' := String (ascii_of_nat (48 + n mod 10)) acc in
      if (n <? 10)%nat then acc' else digits_aux f (n / 10) acc'
  end.

Definition nat_to_string (n : nat) : string := digits_aux (S n) n "".

(** A call that either returns a value or raises an exception whose
    [str()] is the message. *)
Inductive outcome (A : Type) := Returned (a : A) | Raised (msg : string).
Arguments Returned {A} a.
Arguments Raised {A} msg.

(* ------------------------------------------------------------------ *)
(** ** [src/agents/literature_agent.py] (with the two search tools) *)
Module LiteratureAgent.

(** A paper is a dictionary with string keys. *)
Definition paper := dict.

(** The part of a tool's result dictionary that [query] reads:
    ["status"] and ["papers"] (both tools always set both keys). *)
Record source_result := mkSource {
  status : string;
  papers : list paper
}.

(** [search_pubmed] and [search_scholar] wrap their whole body in
    [try ... except Exception]: whatever the backend (the HTTP client and
    the parsing) does, the tool returns a dictionary.  A backend that
    raises, or answers with a non-200 status in [search_scholar], yields
    [{"status": "error", "papers": []}]. *)
Definition fail_closed (backend : outcome (list paper)) : source_result :=
  match backend with
  | Returned ps => mkSource "success" ps
  | Raised _ => mkSource "error" []
  end.

Definition search_pubmed (backend : outcome (list paper)) : outcome source_result :=
  Returned (fail_closed backend).

Definition search_scholar (backend : outcome (list paper)) : outcome source_result :=
  Returned (fail_closed backend).

Definition NO_RESULTS : string :=
  "No publications found matching the query criteria.".
Definition SUMMARY_SUFFIX : string :=
  " covering recent advances in the specified research area (2023-2025).".

Definition generate_summary (pubmed_count scholar_count : nat) : string :=
  let parts :=
    app (if (0 <? pubmed_count)%nat
         then [nat_to_string pubmed_count ++ " publications from PubMed"] else [])
        (if (0 <? scholar_count)%nat
         then [nat_to_string scholar_count ++ " from Google Scholar"] else []) in
  match parts with
  | [] => NO_RESULTS
  | _ => "Retrieved " ++ String.concat " and " parts ++ SUMMARY_SUFFIX
  end.

(** The success dictionary of [query] ([sources_used] and [model_used]
    are constants and left out). *)
Record lit_payload := mkPayload {
  query_text : string;
  total_found : nat;
  result_papers : list paper;
  pubmed_count : nat;
  scholar_count : nat;
  analysis : string
}.

Inductive lit_result :=
| LitSuccess (r : lit_payload)
| LitError (error : string) (query : string).

(** [pubmed_result.get("papers", []) if pubmed_result.get("status") ==
    "success" else []] *)
Definition kept_papers (r : source_result) : list paper :=
  if String.eqb (status r) "success" then papers r else [].

(** [{"source": "PubMed", **p}] *)
Definition tag_pubmed (p : paper) : paper :=
  dict_update [(KStr "source", PStr "PubMed")] p.

(** The aggregation part of the [try] body. *)
Definition aggregate (user_query : string) (pr sr : source_result) : lit_payload :=
  let pubmed_papers := kept_papers pr in
  let scholar_papers := kept_papers sr in
  let all_papers := app (map tag_pubmed pubmed_papers) scholar_papers in
  let summary := generate_summary (length pubmed_papers) (length scholar_papers) in
  mkPayload user_query (length all_papers) (firstn 20 all_papers)
    (length pubmed_papers) (length scholar_papers) summary.

(** [query]: the two tool calls and the aggregation inside one [try];
    an exception raised there becomes [{"status": "error", "error":
    str(exc), "query": user_query}]. *)
Definition query (user_query : string)
    (pubmed_call scholar_call : outcome source_result) : lit_result :=
  match pubmed_call with
  | Raised e => LitError e user_query
  | Returned pr =>
      match scholar_call with
      | Raised e => LitError e user_query
      | Returned sr => LitSuccess (aggregate user_query pr sr)
      end
  end.

Definition result_status (r : lit_result) : string :=
  match r with LitSuccess _ => "success" | LitError _ _ => "error" end.

End LiteratureAgent.

(* ------------------------------------------------------------------ *)
(** ** [src/agents/supervisor.py] *)
Module Supervisor.
Import ClinicalReasoner DoctorAgent LiteratureAgent.

(** The dictionary returned by [AnalysisAgent.analyze_survival]
    ([perform_survival_analysis] catches every exception and reports it
    as an error dictionary, so the call itself always returns). *)
Inductive analysis_result :=
| AnSuccess (p : Q) (median_pembro median_nivo : option Q) (summary figure_path : string)
| AnError (message : string).

(** [lit_result.get("total_found", 0)] *)
Definition lit_total_found (r : lit_result) : nat :=
  match r with LitSuccess p => total_found p | LitError _ _ => 0%nat end.

(** [analysis_result.get("p_value", 1.0)] and the two median lookups
    ([.get] without a default yields [None]). *)
Definition an_p_value (r : analysis_result) : Q :=
  match r with AnSuccess p _ _ _ _ => p | AnError _ => 1 end.
Definition an_median_pembro (r : analysis_result) : option Q :=
  match r with AnSuccess _ m _ _ _ => m | AnError _ => None end.
Definition an_median_nivo (r : analysis_result) : option Q :=
  match r with AnSuccess _ _ m _ _ => m | AnError _ => None end.

(** Step 3 of [process_query]: the evidence handed to the scorer. *)
Definition build_evidence (lit : lit_result) (an : analysis_result) : evidence :=
  mkEvidence (an_p_value an) (lit_total_found lit)
    (an_median_pembro an) (an_median_nivo an).

(** The returned report ([risk_profile] is the constant table of
    [calculate_irae_risk] and is left out; printing is left out). *)
Record report := mkReport {
  literature : lit_result;
  analysis_res : analysis_result;
  rep_recommendation : recommendation;
  doctor_review : review
}.

(** [process_query], given what the literature and analysis stages
    returned. *)
Definition process_query (lit : lit_result) (an : analysis_result) : report :=
  let ev := build_evidence lit an in
  let rec_ := generate_recommendation ev in
  let rev := review_recommendation (recommendation_text rec_)
               (confidence_score rec_) (p_value ev) in
  mkReport lit an rec_ rev.

End Supervisor.

(* ------------------------------------------------------------------ *)
(** ** The [json] module

    A JSON document is represented by its syntax tree: [json.dumps]
    maps a Python value to the tree its text denotes, and [json.loads]
    maps a tree back to a Python value.  The printing of a tree as text
    and the parsing of that text back are inverse and are not modelled. *)
Module Json.

Inductive json :=
| JNull
| JBool (b : bool)
| JInt (z : Z)
| JFloat (q : Q)
| JStr (s : string)
| JArr (l : list json)
| JObj (l : list (string * json)).

(** Python [str(k)] for a dictionary key: JSON object keys are strings,
    so [json.dumps] writes an [int] key in decimal. *)
Definition key_to_string (k : pykey) : string :=
  match k with
  | KStr s => s
  | KInt z =>
      match z with
      | Zneg p => "-" ++ nat_to_string (Pos.to_nat p)
      | _ => nat_to_string (Z.to_nat z)
      end
  end.

(** [json.dumps]: lists and tuples both become arrays. *)
Fixpoint dumps (v : pyval) : json :=
  match v with
  | PNone => JNull
  | PBool b => JBool b
  | PInt z => JInt z
  | PFloat q => JFloat q
  | PStr s => JStr s
  | PList l => JArr (map dumps l)
  | PTuple l => JArr (map dumps l)
  | PDict d => JObj (map (fun kv => (key_to_string (fst kv), dumps (snd kv))) d)
  end.

(** Building the dictionary of an object: each member set in order, so a
    repeated name keeps its first position and its last value. *)
Fixpoint set_members (f : json -> pyval) (acc : dict) (l : list (string * json)) : dict :=
  match l with
  | [] => acc
  | (k, j) :: t => set_members f (dict_set acc (KStr k) (f j)) t
  end.

(** [json.loads]: arrays become lists, objects dictionaries. *)
Fixpoint loads (j : json) : pyval :=
  match j with
  | JNull => PNone
  | JBool b => PBool b
  | JInt z => PInt z
  | JFloat q => PFloat q
  | JStr s => PStr s
  | JArr l => PList (map loads l)
  | JObj l => PDict (set_members loads [] l)
  end.

Fixpoint keys_distinct (ks : list pykey) : bool :=
  match ks with
  | [] => true
  | k :: t => negb (existsb (pykey_eqb k) t) && keys_distinct t
  end.

(** The Python values that JSON represents as they are: no tuple, and
    dictionaries with string keys only (all distinct, as in any Python
    dictionary). *)
Fixpoint json_native (v : pyval) : bool :=
  match v with
  | PTuple _ => false
  | PList l => forallb json_native l
  | PDict d =>
      keys_distinct (map fst d) &&
      forallb (fun kv => match fst kv with
                         | KStr _ => json_native (snd kv)
                         | KInt _ => false
                         end) d
  | _ => true
  end.

(** Induction on Python values through the lists they contain. *)
Definition pyval_ind' (P : pyval -> Prop)
    (Hnone : P PNone) (Hbool : forall b, P (PBool b)) (Hint : forall z, P (PInt z))
    (Hfloat : forall q, P (PFloat q)) (Hstr : forall s, P (PStr s))
    (Hlist : forall l, Forall P l -> P (PList l))
    (Htuple : forall l, Forall P l -> P (PTuple l))
    (Hdict : forall d, Forall (fun kv => P (snd kv)) d -> P (PDict d)) :
    forall v, P v :=
  fix F v :=
    match v with
    | PNone => Hnone
    | PBool b => Hbool b
    | PInt z => Hint z
    | PFloat q => Hfloat q
    | PStr s => Hstr s
    | PList l =>
        Hlist l ((fix G l : Forall P l :=
                    match l with
                    | [] => Forall_nil P
                    | x :: t => @Forall_cons _ P x t (F x) (G t)
                    end) l)
    | PTuple l =>
        Htuple l ((fix G l : Forall P l :=
                     match l with
                     | [] => Forall_nil P
                     | x :: t => @Forall_cons _ P x t (F x) (G t)
                     end) l)
    | PDict d =>
        Hdict d ((fix G d : Forall (fun kv => P (snd kv)) d :=
                    match d with
                    | [] => Forall_nil _
                    | kv :: t => @Forall_cons _ (fun kv => P (snd kv)) kv t (F (snd kv)) (G t)
                    end) d)
    end.

End Json.

(* ------------------------------------------------------------------ *)
(** ** [src/memory/memory_service.py]

    The scoped SQLAlchemy session over the [research_memory] table:
    the committed rows (in id order), the entries added but not yet
    committed, and the next id the database assigns. *)
Module MemoryService.
Import Json.

Record row := mkRow {
  row_id : nat;
  session_id : string;
  row_query : string;
  cancer_type : string;
  findings : option json;   (* the Text column: a JSON document or NULL *)
  row_timestamp : string
}.

(** A [ResearchMemory] object before the database gives it an id. *)
Record entry := mkEntry {
  e_session_id : string;
  e_query : string;
  e_cancer_type : string;
  e_findings : option json;
  e_timestamp : string
}.

Record db_session := mkSession {
  committed : list row;
  pending : list entry;
  next_id : nat
}.

(** Statements that may raise, threading the session. *)
Definition M (A : Type) := db_session -> outcome A * db_session.

Definition ret {A} (a : A) : M A := fun s => (Returned a, s).
Definition raise {A} (msg : string) : M A := fun s => (Raised msg, s).
Definition bind {A B} (m : M A) (k : A -> M B) : M B :=
  fun s => match m s with
           | (Returned a, s') => k a s'
           | (Raised e, s') => (Raised e, s')
           end.

Notation "x <- m ;; k" := (bind m (fun x => k)) (at level 61, m at next level, right associativity).
Notation "m ;;; k" := (bind m (fun _ => k)) (at level 61, right associativity).

(** [try: m except Exception as e: h(e)] *)
Definition try_except {A} (m : M A) (h : string -> M A) : M A :=
  fun s => match m s with
           | (Raised e, s') => h e s'
           | r => r
           end.

(** [self.session.add(entry)] *)
Definition add (e : entry) : M unit :=
  fun s => (Returned tt, mkSession (committed s) (pending s ++ [e]) (next_id s)).

Fixpoint assign_ids (n : nat) (es : list entry) : list row :=
  match es with
  | [] => []
  | e :: t => mkRow n (e_session_id e) (e_query e) (e_cancer_type e)
                (e_findings e) (e_timestamp e) :: assign_ids (S n) t
  end.

(** [self.session.commit()]: [engine] is what the storage engine does
    with the transaction, [None] when it succeeds and [Some msg] when it
    raises; a failed commit writes nothing. *)
Definition commit (engine : option string) : M unit :=
  fun s => match engine with
           | Some msg => (Raised msg, s)
           | None => (Returned tt,
                      mkSession (committed s ++ assign_ids (next_id s) (pending s)) []
                        (next_id s + length (pending s)))
           end.

(** [self.session.rollback()]: the entries not committed are dropped. *)
Definition rollback : M unit :=
  fun s => (Returned tt, mkSession (committed s) [] (next_id s)).

(** [entry.id] after the commit: the entry was the last one flushed. *)
Definition last_id : M nat := fun s => (Returned (pred (next_id s)), s).

(** [save_research]; [now] is [datetime.utcnow()]. *)
Definition save_research (engine : option string) (now : string)
    (sid query ctype : string) (payload : pyval) : M nat :=
  try_except
    (add (mkEntry sid query ctype (Some (dumps payload)) now) ;;;
     commit engine ;;;
     last_id)
    (fun e => rollback ;;; raise e).

(** [save_doctor_review]; [now_iso] is the first [datetime.utcnow()]
    (as [isoformat()]), [now] the second. *)
Definition save_doctor_review (engine : option string) (now_iso now : string)
    (sid decision doctor_name comment : string) : M nat :=
  try_except
    (let record := PDict [(KStr "decision", PStr decision);
                          (KStr "doctor", PStr doctor_name);
                          (KStr "comment", PStr comment);
                          (KStr "timestamp", PStr now_iso)] in
     add (mkEntry sid "Physician Review" "clinical_decision" (Some (dumps record)) now) ;;;
     commit engine ;;;
     last_id)
    (fun e => rollback ;;; raise e).

(** The dictionary returned by [get_session]. *)
Record session_view := mkView {
  v_id : nat;
  v_query : string;
  v_cancer_type : string;
  v_findings : pyval;
  v_timestamp : string
}.

(** [query(ResearchMemory).filter_by(session_id=sid).first()]: the rows
    come back in id order. *)
Definition first_with (sid : string) (rows : list row) : option row :=
  find (fun r => String.eqb (session_id r) sid) rows.

Definition get_session (sid : string) (s : db_session) : option session_view :=
  match first_with sid (committed s) with
  | Some r => Some (mkView (row_id r) (row_query r) (cancer_type r)
                     (match findings r with Some j => loads j | None => PDict [] end)
                     (row_timestamp r))
  | None => None
  end.

(** A session with no entry waiting for a commit: the state between two
    calls of the service, since each write commits or rolls back. *)
Definition s_clean (c : list row) (n : nat) : db_session := mkSession c [] n.

(** The round trip as the specification states it: whatever the
    session, a payload saved under [sid] is what [get_session sid] reads
    back. *)
Definition roundtrip_claim : Prop :=
  forall s now sid q ct payload id s',
    save_research None now sid q ct payload s = (Returned id, s') ->
    exists v, get_session sid s' = Some v /\ v_findings v = payload.

End MemoryService.

(* ------------------------------------------------------------------ *)
(** ** The memory service over a sequence of calls *)
Module MemoryOps.
Import Json MemoryService.

(** One call of the service, with what the storage engine does on its
    commit and the clock readings it takes. *)
Inductive op :=
| OpResearch (engine : option string) (now sid q ct : string) (payload : pyval)
| OpReview (engine : option string) (now_iso now sid decision doctor comment : string).

Definition run_op (o : op) (s : db_session) : db_session :=
  match o with
  | OpResearch engine now sid q ct payload =>
      snd (save_research engine now sid q ct payload s)
  | OpReview engine now_iso now sid decision doctor comment =>
      snd (save_doctor_review engine now_iso now sid decision doctor comment s)
  end.

Fixpoint run (ops : list op) (s : db_session) : db_session :=
  match ops with
  | [] => s
  | o :: t => run t (run_op o s)
  end.

(** A call whose commit succeeds. *)
Definition op_ok (o : op) : bool :=
  match o with
  | OpResearch None _ _ _ _ _ | OpReview None _ _ _ _ _ _ => true
  | _ => false
  end.

End MemoryOps.

(* ------------------------------------------------------------------ *)
(** ** [src/memory/approval_workflow.py] *)
Module ApprovalWorkflow.
Import MemoryService.

Definition APPROVAL_COMMENT : string := "Approved via Doctor-in-the-Loop system".

(** [log_doctor_approval]: the module-level [memory] service shares the
    scoped session; the record id is dropped and an error propagates. *)
Definition log_doctor_approval (engine : option string) (now_iso now : string)
    (sid decision doctor : string) : M unit :=
  _ <- save_doctor_review engine now_iso now sid decision doctor APPROVAL_COMMENT ;;
  ret tt.

End ApprovalWorkflow.

(* ------------------------------------------------------------------ *)
(** ** [src/main.py] *)
Module Main.
Import ClinicalReasoner DoctorAgent LiteratureAgent Supervisor Json MemoryService
  ApprovalWorkflow.

Definition MAIN_QUERY : string :=
  "pembrolizumab AND melanoma AND (2024/01/01:2025/12/31[PDAT])".
Definition APPROVAL_SID : string := "melanoma_clinical_review_2025".
Definition WORKFLOW_SID : string := "melanoma_workflow_2025".

(** [result["literature"].get("total_found")] and
    [result["analysis"].get("p_value")]: [None] when the stage failed. *)
Definition lit_total_found_opt (r : lit_result) : pyval :=
  match r with LitSuccess p => PInt (Z.of_nat (total_found p)) | LitError _ _ => PNone end.
Definition an_p_value_opt (r : analysis_result) : pyval :=
  match r with AnSuccess p _ _ _ _ => PFloat p | AnError _ => PNone end.

(** The [findings] dictionary [main] saves. *)
Definition main_findings (rep : report) : pyval :=
  PDict [(KStr "total_papers", lit_total_found_opt (literature rep));
         (KStr "p_value", an_p_value_opt (analysis_res rep));
         (KStr "grade", PStr (grade (rep_recommendation rep)));
         (KStr "physician_decision", PStr (decision_label (doctor_decision (doctor_review rep))));
         (KStr "confidence", PFloat (confidence_score (rep_recommendation rep)))].

(** The body of the [try] in [main] after [process_query]: the approval
    log on Approve, then the session save (through a new service on the
    same scoped session). *)
Definition main_writes (rep : report) (engine_review engine_session : option string)
    (now_iso now now' : string) : M unit :=
  (if String.eqb (decision_label (doctor_decision (doctor_review rep))) "approve"
   then log_doctor_approval engine_review now_iso now APPROVAL_SID "approved"
          (doctor_name (doctor_review rep))
   else ret tt) ;;;
  _ <- save_research engine_session now' WORKFLOW_SID MAIN_QUERY "melanoma" (main_findings rep) ;;
  ret tt.

(** [main] from the point the API key is accepted: an exception is
    caught and its message printed ([Some msg]); [None] when the run is
    archived. *)
Definition main_run (rep : report) (engine_review engine_session : option string)
    (now_iso now now' : string) : M (option string) :=
  try_except (main_writes rep engine_review engine_session now_iso now now' ;;; ret None)
    (fun e => ret (Some e)).

(** The rows [main] stores: the record [save_doctor_review] writes, and
    the archived findings. *)
Definition review_record (decision doctor comment now_iso : string) : pyval :=
  PDict [(KStr "decision", PStr decision); (KStr "doctor", PStr doctor);
         (KStr "comment", PStr comment); (KStr "timestamp", PStr now_iso)].

Definition review_row (n : nat) (sid decision doctor comment now_iso now : string) : row :=
  mkRow n sid "Physician Review" "clinical_decision"
    (Some (dumps (review_record decision doctor comment now_iso))) now.

Definition session_row (n : nat) (rep : report) (now' : string) : row :=
  mkRow n WORKFLOW_SID MAIN_QUERY "melanoma" (Some (dumps (main_findings rep))) now'.

End Main.

(* ------------------------------------------------------------------ *)
(** ** [src/app.py]: the metrics row of the dashboard *)
Module Dashboard.
Import Supervisor.

(** [res['analysis'].get('p_value', 0)] *)
Definition p_value_metric (rep : report) : Q :=
  match analysis_res rep with AnSuccess p _ _ _ _ => p | AnError _ => 0 end.

(** [res["literature"].get("total_found", 0)] *)
Definition papers_metric (rep : report) : nat :=
  lit_total_found (literature rep).

End Dashboard.

(* ------------------------------------------------------------------ *)
(** ** [src/tools/scholar_tool.py]: parsing of the result page

    Text is modelled as ASCII strings; the character classes below are
    Python's on that range. *)
Module ScholarTool.
Import LiteratureAgent.

(** [str.isspace] on ASCII: tab to carriage return, the separators
    0x1c to 0x1f, and space. *)
Definition is_py_space (c : ascii) : bool :=
  let n := nat_of_ascii c in
  ((9 <=? n) && (n <=? 13))%nat || ((28 <=? n) && (n <=? 31))%nat || (n =? 32)%nat.

Fixpoint lstrip (s : string) : string :=
  match s with
  | EmptyString => EmptyString
  | String c s' => if is_py_space c then lstrip s' else s
  end.

Fixpoint rev_string (s : string) : string :=
  match s with
  | EmptyString => EmptyString
  | String c s' => rev_string s' ++ String c EmptyString
  end.

(** [str.strip()] *)
Definition strip (s : string) : string := rev_string (lstrip (rev_string (lstrip s))).

(** [str.split("-")]: the pieces between dashes, empty ones included. *)
Fixpoint split_dash_aux (s cur : string) : list string :=
  match s with
  | EmptyString => [cur]
  | String c s' =>
      if Ascii.eqb c "-"%char then cur :: split_dash_aux s' EmptyString
      else split_dash_aux s' (cur ++ String c EmptyString)
  end.

Definition split_dash (s : string) : list string := split_dash_aux s EmptyString.

Definition is_dec_digit (c : ascii) : bool :=
  let n := nat_of_ascii c in ((48 <=? n) && (n <=? 57))%nat.

(** [str.isdigit()]: non-empty and all digits. *)
Definition isdigit (s : string) : bool :=
  match s with
  | EmptyString => false
  | _ => forallb is_dec_digit (list_ascii_of_string s)
  end.

(** [int(s)] on a string of digits. *)
Definition dec_value (s : string) : Z :=
  fold_left (fun acc c => (acc * 10 + Z.of_nat (nat_of_ascii c - 48))%Z)
    (list_ascii_of_string s) 0%Z.

Definition year_part (part : string) : bool :=
  isdigit part && (2023 <=? dec_value part)%Z && (dec_value part <=? 2025)%Z.

(** The year loop: the first stripped dash-separated piece of the info
    line that is a number in 2023..2025, else ["2024"]. *)
Definition extract_year (info_text : string) : string :=
  match find year_part (map strip (split_dash info_text)) with
  | Some part => part
  | None => "2024"
  end.

(** One [.gs_r.gs_or.gs_scl] item: the text and [href] of its
    [.gs_rt a] tag, the text of [.gs_rs] and of [.gs_a], when present. *)
Record item := mkItem {
  title_tag : option (string * option string);
  snippet_tag : option string;
  info_tag : option string
}.

Definition parse_item (it : item) : option paper :=
  match title_tag it with
  | None => None
  | Some (title, href) =>
      let link := match href with Some l => l | None => "" end in
      let snippet_text := match snippet_tag it with Some t => t | None => "No abstract available" end in
      let info_text := match info_tag it with Some t => t | None => "" end in
      Some [(KStr "title", PStr title); (KStr "link", PStr link);
            (KStr "snippet", PStr snippet_text);
            (KStr "year", PStr (extract_year info_text));
            (KStr "source", PStr "Google Scholar"); (KStr "info", PStr info_text)]
  end.


Fixpoint parse_items (items : list item) : list paper :=
  match items with
  | [] => []
  | it :: t => match parse_item it with
               | Some p => p :: parse_items t
               | None => parse_items t
               end
  end.

(** [search_scholar]: [response] is what [requests.get] does (the status
    code and the parsed items, or an exception). *)
Definition search_scholar_page (response : outcome (Z * list item)) (max_results : nat)
    : source_result :=
  match response with
  | Raised _ => mkSource "error" []
  | Returned (code, items) =>
      if (code =? 200)%Z then mkSource "success" (parse_items (firstn max_results items))
      else mkSource "error" []
  end.

End ScholarTool.

(* ------------------------------------------------------------------ *)
(** ** [src/tools/stats_tool.py] and [src/agents/analysis_agent.py]

    The Kaplan-Meier fits and the log-rank test are library calls; the
    code around them is modelled from their outputs.  Python's float
    formatting ([f"{x:.4f}"], [f"{x}"]) is left as a parameter. *)
Module Analysis.
Import Supervisor.

Section Formatting.
Variable fmt4 : Q -> string.
Variable fstr : Q -> string.

(** Python [round(x, 4)]: to the nearest multiple of 1/10000, ties to
    even. *)
Definition round4 (x : Q) : Q :=
  let y := x * inject_Z 10000 in
  let f := Qfloor y in
  let r := y - inject_Z f in
  let n := match Qcompare r (1#2) with
           | Lt => f
           | Gt => (f + 1)%Z
           | Eq => if Z.even f then f else (f + 1)%Z
           end in
  Qmake n 10000.

Definition significance (p : Q) : string :=
  if qltb p (5#100) then "statistically significant" else "not statistically significant".

(** [f"{m or d}"] on a median that may be [None]; [0.0] is falsy. *)
Definition or_text (m : option Q) (d : string) : string :=
  match m with
  | None => d
  | Some x => if Qeq_bool x 0 then d else fstr x
  end.

Definition opt_text (m : option Q) : string :=
  match m with None => "None" | Some x => fstr x end.

Definition interpretation (p : Q) (m1 m2 : option Q) : string :=
  "Log-rank test p-value: " ++ fmt4 p ++ ". " ++
  "The survival difference between treatments is " ++ significance p ++ " (alpha=0.05). " ++
  "Median OS for pembrolizumab: " ++ or_text m1 "Not reached" ++ " months; " ++
  "nivolumab: " ++ opt_text m2 ++ " months.".

Definition FIG_PATH : string := "outputs/figures/km_survival_analysis.png".

Inductive perf_result :=
| PerfSuccess (figure_path : string) (p_value : Q) (m1 m2 : option Q)
    (interp : string) (test_statistic : Q)
| PerfError (error : string).

(** [perform_survival_analysis]: [lifelines] is the raw p-value, test
    statistic and the two medians ([None] for NaN), or the exception the
    fitting, plotting or saving raised. *)
Definition perform_survival_analysis (lifelines : outcome (Q * Q * option Q * option Q))
    : perf_result :=
  match lifelines with
  | Raised e => PerfError e
  | Returned (p, t, m1, m2) =>
      PerfSuccess FIG_PATH (round4 p) m1 m2 (interpretation p m1 m2) (round4 t)
  end.

Definition NL : string := String (ascii_of_nat 10) EmptyString.
Fixpoint repeat_string (n : nat) (s : string) : string :=
  match n with O => EmptyString | S k => s ++ repeat_string k s end.

(** [analyze_survival] ([perform_survival_analysis] always sets
    ["error"] on failure, so the default message is not reached). *)
Definition analyze_survival (r : perf_result) : analysis_result :=
  match r with
  | PerfError e => AnError e
  | PerfSuccess fig p m1 m2 interp t =>
      let summary :=
        NL ++ "SURVIVAL ANALYSIS RESULTS" ++ NL ++ repeat_string 70 "=" ++ NL ++
        "Comparison        : Pembrolizumab vs Nivolumab" ++ NL ++
        "Statistical test  : Log-rank test" ++ NL ++
        "P-value           : " ++ fstr p ++ NL ++
        "Test statistic    : " ++ fstr t ++ NL ++
        "Median OS (Pembro): " ++ or_text m1 "N/A" ++ " months" ++ NL ++
        "Median OS (Nivo)  : " ++ or_text m2 "N/A" ++ " months" ++ NL ++
        NL ++ "Interpretation:" ++ NL ++ interp ++ NL ++
        NL ++ "Figure saved at: " ++ fig ++ NL ++ repeat_string 70 "=" in
      AnSuccess p m1 m2 summary fig
  end.

End Formatting.

End Analysis.

(* ------------------------------------------------------------------ *)
(** ** [src/tools/pubmed_tool.py]: building the paper dictionaries *)
Module PubmedTool.
Import LiteratureAgent.

(** [article.publication_date]: a date object (its [year] and its
    [str()]) or a string. *)
Inductive pub_date := DateObj (year : Z) (text : string) | DateText (text : string).

(** An author entry: whether it has both attributes [lastname] and
    [firstname], and what [f"{author['lastname']} {author['firstname']}"]
    gives or raises. *)
Record author := mkAuthor {
  has_name_attrs : bool;
  name_lookup : outcome string
}.

(** An attribute read without a [hasattr] guard: missing (the read
    raises [AttributeError]) or present, possibly [None]. *)
Inductive attr (A : Type) := Missing | Present (v : option A).
Arguments Missing {A}.
Arguments Present {A} v.

Definition get_attr {A} (x : attr A) : outcome (option A) :=
  match x with Missing => Raised "AttributeError" | Present v => Returned v end.

Definition obind {A B} (m : outcome A) (k : A -> outcome B) : outcome B :=
  match m with Returned a => k a | Raised e => Raised e end.

(** The attributes of a [pymed] article the tool reads.  [authors] is
    read behind [hasattr(article, 'authors') and article.authors]: a
    missing attribute, [None] and an empty list all give no author. *)
Record article := mkArticle {
  a_title : attr string;
  a_authors : option (list author);
  a_abstract : attr string;
  a_pubmed_id : attr string;
  a_publication_date : attr pub_date;
  a_journal : attr string
}.

(** [x or d] on a string attribute: [None] and [""] are falsy. *)
Definition py_or (x : option string) (d : string) : string :=
  match x with Some s => if String.eqb s "" then d else s | None => d end.

(** [s.split('\n')[0]] *)
Fixpoint first_line (s : string) : string :=
  match s with
  | EmptyString => EmptyString
  | String c t => if Ascii.eqb c (ascii_of_nat 10) then EmptyString else String c (first_line t)
  end.

Section Parsing.
(** Python's [int()] on a string: [None] when it raises. *)
Variable int_of : string -> option Z.

Definition date_truthy (d : pub_date) : bool :=
  match d with DateObj _ _ => true | DateText t => negb (String.eqb t "") end.

Definition parse_year (d : option pub_date) : outcome pyval :=
  match d with
  | Some d' =>
      if date_truthy d' then
        match d' with
        | DateObj y _ => Returned (PInt y)
        | DateText t =>
            match int_of (substring 0 4 t) with
            | Some y => Returned (PInt y)
            | None => Raised "invalid literal for int()"
            end
        end
      else Returned PNone
  | None => Returned PNone
  end.

Definition date_text (d : option pub_date) : string :=
  match d with
  | Some d' =>
      if date_truthy d' then match d' with DateObj _ t | DateText t => t end else "Unknown"
  | None => "Unknown"
  end.

(** The author loop, over [article.authors[:5]]. *)
Fixpoint collect_authors (l : list author) : outcome (list string) :=
  match l with
  | [] => Returned []
  | a :: t =>
      if has_name_attrs a then
        match name_lookup a with
        | Raised e => Raised e
        | Returned n =>
            match collect_authors t with
            | Returned ns => Returned (n :: ns)
            | Raised e => Raised e
            end
        end
      else collect_authors t
  end.

(** The body of the inner [try] for one article, in the order the
    code reads the attributes. *)
Definition parse_article (a : article) : outcome paper :=
  obind (get_attr (a_publication_date a)) (fun pub_date =>
  obind (parse_year pub_date) (fun year =>
  obind (collect_authors (firstn 5 (match a_authors a with Some l => l | None => [] end)))
    (fun authors =>
  obind (get_attr (a_title a)) (fun title =>
  obind (get_attr (a_abstract a)) (fun abstract =>
  obind (get_attr (a_pubmed_id a)) (fun pubmed_id =>
  obind (get_attr (a_journal a)) (fun journal =>
  Returned
    [(KStr "title", PStr (py_or title "No title available"));
     (KStr "authors", PList (map PStr (match authors with [] => ["Unknown"] | _ => authors end)));
     (KStr "abstract", PStr (py_or abstract "No abstract available"));
     (KStr "pmid", PStr (match pubmed_id with
                         | Some s => if String.eqb s "" then "Unknown" else first_line s
                         | None => "Unknown"
                         end));
     (KStr "publication_date", PStr (date_text pub_date));
     (KStr "year", year);
     (KStr "journal", PStr (py_or journal "Unknown"))]))))))).

(** The article loop: an article whose parsing raises is skipped. *)
Fixpoint parse_articles (l : list article) : list paper :=
  match l with
  | [] => []
  | a :: t =>
      match parse_article a with
      | Returned p => p :: parse_articles t
      | Raised _ => parse_articles t
      end
  end.

(** [search_pubmed]: [results] is what [pubmed.query] yields (at most
    [max_results] articles), or the exception raised by the client or
    while iterating. *)
Definition search_pubmed_articles (results : outcome (list article)) : source_result :=
  match results with
  | Raised _ => mkSource "error" []
  | Returned arts => mkSource "success" (parse_articles arts)
  end.

End Parsing.

End PubmedTool.

(* ------------------------------------------------------------------ *)
(** ** [OncologySupervisor._format_literature_output]

    Printing is left out; what is kept is where the method can raise:
    the [paper['title']] lookup, and for a PubMed paper the slice and
    [", ".join] of its authors. *)
Module LiteratureOutput.
Import LiteratureAgent.

Definition is_pystr (v : pyval) : bool := match v with PStr _ => true | _ => false end.

(** [", ".join(v[:3])] (and [len(v)] after it). *)
Definition join_first3 (v : pyval) : outcome unit :=
  match v with
  | PList l | PTuple l =>
      if forallb is_pystr (firstn 3 l) then Returned tt
      else Raised "sequence item: expected str instance"
  | PStr _ => Returned tt
  | _ => Raised "object is not subscriptable"
  end.

Definition format_paper (p : paper) : outcome unit :=
  match dict_get p (KStr "title") with
  | None => Raised "'title'"
  | Some _ =>
      match dict_get p (KStr "source") with
      | Some (PStr s) =>
          if String.eqb s "PubMed" then
            join_first3 (match dict_get p (KStr "authors") with
                         | Some v => v
                         | None => PList [PStr "Unknown"]
                         end)
          else Returned tt
      | _ => Returned tt
      end
  end.

Fixpoint format_papers (ps : list paper) : outcome unit :=
  match ps with
  | [] => Returned tt
  | p :: t => match format_paper p with Raised e => Raised e | Returned _ => format_papers t end
  end.

(** The loop over [result["papers"][:6]]. *)
Definition format_literature_output (r : lit_payload) : outcome unit :=
  format_papers (firstn 6 (result_papers r)).

End LiteratureOutput.

(* ================================================================== *)
(** * Properties *)

Section QFacts.

Lemma qltb_spec (a b : Q) : qltb a b = true <-> a < b.
Proof.
  unfold qltb. rewrite negb_true_iff. split.
  - intro H. apply Qnot_le_lt. intro H'. apply Qle_bool_iff in H'. congruence.
  - intro H. destruct (Qle_bool b a) eqn:E; [|reflexivity].
    apply Qle_bool_iff in E. exfalso. apply (Qlt_not_le a b); assumption.
Qed.

Lemma qltb_false (a b : Q) : qltb a b = false <-> ~ a < b.
Proof.
  rewrite <- qltb_spec. destruct (qltb a b); split; intro H; congruence.
Qed.

Lemma qltb_asym (a b : Q) : qltb a b = true -> qltb b a = false.
Proof.
  rewrite qltb_spec, qltb_false. intros H H'. apply (Qlt_irrefl a).
  apply Qlt_trans with b; assumption.
Qed.

Lemma qltb_below (p x y : Q) : x <= y -> qltb p x = true -> qltb y p = false.
Proof.
  rewrite qltb_spec, qltb_false. intros Hxy Hp Hy. apply (Qlt_irrefl p).
  apply Qlt_le_trans with x; [assumption|].
  apply Qle_trans with y; [assumption|]. apply Qlt_le_weak; assumption.
Qed.

End QFacts.

Ltac bool_of_prop :=
  repeat match goal with
  | H : ?a < ?b |- _ => apply (proj2 (qltb_spec a b)) in H
  | H : ~ ?a < ?b |- _ => apply (proj2 (qltb_false a b)) in H
  | H : (?a <= ?b)%nat |- _ => apply (proj2 (Nat.leb_le a b)) in H
  | H : ?a <= ?b |- _ => apply (proj2 (Qle_bool_iff a b)) in H
  end.

Module ClinicalReasonerProps.
Import ClinicalReasoner.

Example score_1A : grade (score (5#1000) 12 14) = "1A".
Proof. reflexivity. Qed.

(** Claim C1.  [score] (the tiering of [generate_recommendation] on
    [p_value], [total_papers] and the median difference) evaluates the
    three tiers in order, first match wins: [p < 0.01], at least 10
    papers and a difference of at least 12 months give confidence 0.94,
    Strong ("Strong recommendation"), "1A"; otherwise [p < 0.05] and at
    least 8 papers give 0.87, Moderate, "1B"; otherwise 0.62, Weak, "2C".
    On [(0.005, 12, 14)] the result is "1A"/0.94, on [(0.03, 9, 3)]
    "1B"/0.87 and on [(0.2, 2, 0)] "2C"/0.62; [generate_recommendation]
    feeds [score] the difference of the medians with [None] read as 0. *)
Theorem score_tiers :
  (forall p n d,
     p < 1#100 /\ (10 <= n)%nat /\ 12 <= d ->
     score p n d = mkRecommendation RECOMMENDATION_TEXT (94#100) Strong "1A") /\
  (forall p n d,
     ~ (p < 1#100 /\ (10 <= n)%nat /\ 12 <= d) ->
     p < 5#100 /\ (8 <= n)%nat ->
     score p n d = mkRecommendation RECOMMENDATION_TEXT (87#100) Moderate "1B") /\
  (forall p n d,
     ~ (p < 1#100 /\ (10 <= n)%nat /\ 12 <= d) ->
     ~ (p < 5#100 /\ (8 <= n)%nat) ->
     score p n d = mkRecommendation RECOMMENDATION_TEXT (62#100) Weak "2C") /\
  (map strength_label [Strong; Moderate; Weak] =
     ["Strong recommendation"; "Moderate recommendation"; "Weak recommendation"]) /\
  (grade (score (5#1000) 12 14) = "1A" /\ confidence_score (score (5#1000) 12 14) = 94#100) /\
  (grade (score (3#100) 9 3) = "1B" /\ confidence_score (score (3#100) 9 3) = 87#100) /\
  (grade (score (2#10) 2 0) = "2C" /\ confidence_score (score (2#10) 2 0) = 62#100) /\
  (forall e, generate_recommendation e =
     score (p_value e) (total_papers e)
       (or_zero (median_pembrolizumab e) - or_zero (median_nivolumab e))).
Proof.
  split; [|split; [|split; [|split]]].
  - intros p n d (H1 & H2 & H3). bool_of_prop. unfold score.
    rewrite H1, H2, H3. reflexivity.
  - intros p n d Hn1 (H1 & H2). unfold score.
    destruct (qltb p (1#100) && (10 <=? n)%nat && Qle_bool 12 d) eqn:E.
    + exfalso. apply Hn1. apply andb_true_iff in E as [E E3].
      apply andb_true_iff in E as [E1 E2].
      split; [apply qltb_spec|split; [apply Nat.leb_le|apply Qle_bool_iff]]; assumption.
    + bool_of_prop. rewrite H1, H2. reflexivity.
  - intros p n d Hn1 Hn2. unfold score.
    destruct (qltb p (1#100) && (10 <=? n)%nat && Qle_bool 12 d) eqn:E.
    + exfalso. apply Hn1. apply andb_true_iff in E as [E E3].
      apply andb_true_iff in E as [E1 E2].
      split; [apply qltb_spec|split; [apply Nat.leb_le|apply Qle_bool_iff]]; assumption.
    + destruct (qltb p (5#100) && (8 <=? n)%nat) eqn:E'; [|reflexivity].
      exfalso. apply Hn2. apply andb_true_iff in E' as [E1 E2].
      split; [apply qltb_spec|apply Nat.leb_le]; assumption.
  - reflexivity.
  - repeat split; reflexivity.
Qed.

End ClinicalReasonerProps.

Module DoctorAgentProps.
Import DoctorAgent.

Example review_low : doctor_decision (review_recommendation "x" (65#100) (1#100)) = Modify.
Proof. reflexivity. Qed.

(** Claim C2.  [review_recommendation] decides in priority order:
    confidence below 0.70 gives Modify with the dose/monitoring comment;
    otherwise a p-value above 0.05 gives Modify with the trial-enrollment
    comment; otherwise Approve with the affirming comment.  Confidence
    0.65 gives Modify for every p-value; (0.9, 0.1) gives Modify and
    (0.9, 0.01) gives Approve. *)
Theorem review_policy :
  (forall text c p, c < 70#100 ->
     doctor_decision (review_recommendation text c p) = Modify /\
     comment (review_recommendation text c p) = COMMENT_LOW_CONFIDENCE) /\
  (forall text c p, ~ c < 70#100 -> 5#100 < p ->
     doctor_decision (review_recommendation text c p) = Modify /\
     comment (review_recommendation text c p) = COMMENT_WEAK_EVIDENCE) /\
  (forall text c p, ~ c < 70#100 -> ~ 5#100 < p ->
     doctor_decision (review_recommendation text c p) = Approve /\
     comment (review_recommendation text c p) = COMMENT_APPROVE) /\
  (forall text p, doctor_decision (review_recommendation text (65#100) p) = Modify) /\
  (forall text, doctor_decision (review_recommendation text (9#10) (1#10)) = Modify) /\
  (forall text, doctor_decision (review_recommendation text (9#10) (1#100)) = Approve).
Proof.
  split; [|split; [|split; [|split]]].
  - intros text c p H. bool_of_prop. unfold review_recommendation. rewrite H.
    split; reflexivity.
  - intros text c p H1 H2. bool_of_prop. unfold review_recommendation.
    rewrite H1, H2. split; reflexivity.
  - intros text c p H1 H2. bool_of_prop. unfold review_recommendation.
    rewrite H1, H2. split; reflexivity.
  - intros text p. reflexivity.
  - split; intro text; reflexivity.
Qed.

(** Claim C6.  The [final_recommendation] of a review is the input text
    when the decision is Approve and the comment when it is Modify; so,
    for a text that is not one of the two Modify comments, it equals the
    input text exactly when the decision is Approve. *)
Theorem final_recommendation_quirk :
  forall text c p,
    let r := review_recommendation text c p in
    final_recommendation r =
      match doctor_decision r with Approve => text | Modify => comment r end /\
    (text <> COMMENT_LOW_CONFIDENCE -> text <> COMMENT_WEAK_EVIDENCE ->
     (final_recommendation r = text <-> doctor_decision r = Approve)).
Proof.
  intros text c p r. subst r. unfold review_recommendation.
  destruct (qltb c (70#100)); [|destruct (qltb (5#100) p)]; simpl;
    (split; [reflexivity|]); intros Hlow Hweak; split; intro H;
    solve [reflexivity | discriminate | congruence].
Qed.

End DoctorAgentProps.

Module WorkflowProps.
Import ClinicalReasoner DoctorAgent Supervisor.

(** Claim C10.  As [process_query] wires them (the scorer's confidence
    and the evidence p-value go to the review gate), the review is
    Approve exactly when the grade is "1A" or "1B"; a Weak/"2C"
    recommendation is always Modified. *)
Theorem approve_iff_graded :
  forall lit an,
    let rep := process_query lit an in
    (doctor_decision (doctor_review rep) = Approve <->
       grade (rep_recommendation rep) = "1A" \/ grade (rep_recommendation rep) = "1B") /\
    (grade (rep_recommendation rep) = "2C" ->
       strength_of_recommendation (rep_recommendation rep) = Weak /\
       doctor_decision (doctor_review rep) = Modify).
Proof.
  intros lit an rep. subst rep. unfold process_query, generate_recommendation, score.
  set (p := p_value (build_evidence lit an)).
  set (n := total_papers (build_evidence lit an)).
  set (d := median_os_diff (build_evidence lit an)).
  destruct (qltb p (1#100)) eqn:H1; destruct (10 <=? n)%nat; destruct (Qle_bool 12 d);
    destruct (qltb p (5#100)) eqn:H5; destruct (8 <=? n)%nat;
    simpl; unfold review_recommendation; simpl;
    try rewrite (qltb_below p (1#100) (5#100) ltac:(vm_compute; discriminate) H1);
    try rewrite (qltb_below p (5#100) (5#100) (Qle_refl _) H5); simpl;
    first
      [ solve [split; [split; intros; auto | intro H; discriminate]]
      | solve [split; [split; intro H; [discriminate | destruct H; discriminate] | auto]] ].
Qed.

End WorkflowProps.

Module SupervisorProps.
Import ClinicalReasoner DoctorAgent LiteratureAgent Supervisor.

(** Claim C3.  [process_query] runs to the end whatever the two stages
    returned: a failed literature stage hands the scorer a paper count of
    0, a failed analysis stage a p-value of 1.0 and no medians; the
    recommendation is the scorer's on that evidence and the review is the
    gate's on that recommendation. *)
Theorem failed_stages_absorbed :
  forall lit an,
    let ev := build_evidence lit an in
    let rep := process_query lit an in
    total_papers ev =
      match lit with LitError _ _ => 0%nat | LitSuccess r => total_found r end /\
    match an with
    | AnError _ => p_value ev = 1 /\ median_pembrolizumab ev = None /\ median_nivolumab ev = None
    | AnSuccess p m1 m2 _ _ =>
        p_value ev = p /\ median_pembrolizumab ev = m1 /\ median_nivolumab ev = m2
    end /\
    rep_recommendation rep = generate_recommendation ev /\
    doctor_review rep =
      review_recommendation (recommendation_text (generate_recommendation ev))
        (confidence_score (generate_recommendation ev)) (p_value ev).
Proof.
  intros lit an ev rep. subst ev rep.
  split; [destruct lit; reflexivity|].
  split; [destruct an; repeat split; reflexivity|].
  split; reflexivity.
Qed.

End SupervisorProps.

Module LiteratureAgentProps.
Import LiteratureAgent.

(** Claim C4.  On a successful search the paper list is the first 20 of
    the tagged PubMed papers followed by the Scholar papers, so its
    length is [min(20, pubmed_count + scholar_count)]; when
    [pubmed_count <= 20] its first [pubmed_count] entries are the PubMed
    papers in order and the rest are the first Scholar papers in order;
    the two counts are the counts before truncation and [total_found] is
    their sum. *)
Theorem aggregate_layout :
  forall q pr sr,
    let r := aggregate q pr sr in
    let pp := kept_papers pr in
    let sp := kept_papers sr in
    query q (Returned pr) (Returned sr) = LitSuccess r /\
    length (result_papers r) = Nat.min 20 (pubmed_count r + scholar_count r) /\
    result_papers r = firstn 20 (map tag_pubmed pp ++ sp) /\
    ((pubmed_count r <= 20)%nat ->
       firstn (pubmed_count r) (result_papers r) = map tag_pubmed pp /\
       skipn (pubmed_count r) (result_papers r) = firstn (20 - pubmed_count r) sp) /\
    pubmed_count r = length pp /\
    scholar_count r = length sp /\
    total_found r = (pubmed_count r + scholar_count r)%nat.
Proof.
  intros q pr sr r pp sp. subst r. unfold aggregate. fold pp sp. cbv zeta.
  cbn [result_papers pubmed_count scholar_count total_found].
  split; [reflexivity|].
  split; [rewrite length_firstn, length_app, length_map; reflexivity|].
  split; [reflexivity|].
  split; [|split; [reflexivity|split; [reflexivity|]]].
  - intro Hle. split.
    + rewrite firstn_firstn, Nat.min_l by exact Hle.
      rewrite firstn_app, length_map, Nat.sub_diag, firstn_0, app_nil_r.
      rewrite <- (length_map tag_pubmed pp). apply firstn_all.
    + rewrite skipn_firstn_comm, skipn_app, length_map, Nat.sub_diag, skipn_0.
      assert (Hs : skipn (length pp) (map tag_pubmed pp) = []).
      { apply skipn_all2. rewrite length_map. apply Nat.le_refl. }
      rewrite Hs. reflexivity.
  - rewrite length_app, length_map. reflexivity.
Qed.

(** Claim C5.  A source whose status is not "success" contributes no
    paper while the other source's papers are kept, and the search still
    reports "success"; the two tools never raise (whatever their backend
    does), so the search succeeds; the search reports "error" only when
    an exception reaches its [try], and then it carries that exception's
    message and the original query and no paper list. *)
Theorem per_source_fail_closed :
  (forall q pr sr,
     let r := aggregate q pr sr in
     result_status (query q (Returned pr) (Returned sr)) = "success" /\
     (status pr <> "success" ->
        pubmed_count r = 0%nat /\ result_papers r = firstn 20 (kept_papers sr)) /\
     (status sr <> "success" ->
        scholar_count r = 0%nat /\ result_papers r = firstn 20 (map tag_pubmed (kept_papers pr))) /\
     (status pr = "success" -> kept_papers pr = papers pr) /\
     (status sr = "success" -> kept_papers sr = papers sr)) /\
  (forall q bp bs,
     result_status (query q (search_pubmed bp) (search_scholar bs)) = "success") /\
  (forall q bp bs e, bp = Raised e ->
     exists r, query q (search_pubmed bp) (search_scholar bs) = LitSuccess r /\
               pubmed_count r = 0%nat) /\
  (forall q c1 c2 e q',
     query q c1 c2 = LitError e q' ->
     q' = q /\ (c1 = Raised e \/ exists pr, c1 = Returned pr /\ c2 = Raised e)) /\
  (forall q e c2, query q (Raised e) c2 = LitError e q) /\
  (forall q pr e, query q (Returned pr) (Raised e) = LitError e q).
Proof.
  split; [|split; [|split; [|split; [|split]]]].
  - intros q pr sr r. subst r. unfold aggregate, kept_papers. simpl.
    split; [reflexivity|].
    split; [|split; [|split]].
    + intro H. apply String.eqb_neq in H. rewrite H. simpl. split; reflexivity.
    + intro H. apply String.eqb_neq in H. rewrite H. simpl.
      rewrite app_nil_r. split; reflexivity.
    + intro H. rewrite H. reflexivity.
    + intro H. rewrite H. reflexivity.
  - intros q bp bs. reflexivity.
  - intros q bp bs e ->. eexists. split; [reflexivity|]. reflexivity.
  - intros q [pr|e1] [sr|e2] e q' H; simpl in H; try discriminate;
      injection H as <- <-; split; eauto.
  - reflexivity.
  - reflexivity.
Qed.

(** Claim C9.  The summary is the fixed "no results" message exactly when
    both counts are zero, and then [total_found] is 0; otherwise it lists
    each nonzero count, the two joined with " and " when both are
    nonzero. *)
Theorem summary_text :
  (forall pc sc, generate_summary pc sc = NO_RESULTS <-> pc = 0%nat /\ sc = 0%nat) /\
  (forall q pr sr,
     let r := aggregate q pr sr in
     analysis r = generate_summary (pubmed_count r) (scholar_count r) /\
     (analysis r = NO_RESULTS -> total_found r = 0%nat)) /\
  (forall a b,
     generate_summary (S a) (S b) =
       "Retrieved " ++ ((nat_to_string (S a) ++ " publications from PubMed") ++ " and "
         ++ (nat_to_string (S b) ++ " from Google Scholar")) ++ SUMMARY_SUFFIX) /\
  (forall a,
     generate_summary (S a) 0 =
       "Retrieved " ++ (nat_to_string (S a) ++ " publications from PubMed") ++ SUMMARY_SUFFIX) /\
  (forall b,
     generate_summary 0 (S b) =
       "Retrieved " ++ (nat_to_string (S b) ++ " from Google Scholar") ++ SUMMARY_SUFFIX).
Proof.
  assert (Hiff : forall pc sc, generate_summary pc sc = NO_RESULTS <-> pc = 0%nat /\ sc = 0%nat).
  { intros [|a] [|b]; unfold generate_summary; simpl;
      split; intro H; solve [auto | discriminate | destruct H; discriminate]. }
  split; [exact Hiff|].
  split; [|split; [|split]]; [| intros; reflexivity | intros; reflexivity | intros; reflexivity].
  intros q pr sr r. subst r. unfold aggregate. simpl. split; [reflexivity|].
  intro H. apply Hiff in H as [H1 H2].
  rewrite length_app, length_map, H1, H2. reflexivity.
Qed.

End LiteratureAgentProps.

Module MemoryServiceProps.
Import Json MemoryService.

Lemma save_research_clean_state :
  forall s engine now sid q ct payload,
    pending (snd (save_research engine now sid q ct payload s)) = [].
Proof.
  intros [c p n] [msg|] now sid q ct payload; reflexivity.
Qed.

(** Claim C7.  From a session with no entry waiting (the state between
    two calls), a write whose commit fails leaves the session as it was
    and raises the storage error; a write whose commit succeeds appends
    exactly one row after the existing rows, which are kept unchanged,
    and returns that row's id.  This holds for [save_research] and for
    [save_doctor_review]. *)
Theorem writes_append_or_rollback :
  forall s, pending s = [] ->
  (forall msg now sid q ct payload,
     save_research (Some msg) now sid q ct payload s = (Raised msg, s)) /\
  (forall now sid q ct payload,
     let '(res, s') := save_research None now sid q ct payload s in
     res = Returned (next_id s) /\
     committed s' = app (committed s) [mkRow (next_id s) sid q ct (Some (dumps payload)) now] /\
     pending s' = [] /\ next_id s' = S (next_id s)) /\
  (forall msg now_iso now sid decision doctor comment,
     save_doctor_review (Some msg) now_iso now sid decision doctor comment s = (Raised msg, s)) /\
  (forall now_iso now sid decision doctor comment,
     let '(res, s') := save_doctor_review None now_iso now sid decision doctor comment s in
     res = Returned (next_id s) /\
     committed s' = app (committed s)
       [mkRow (next_id s) sid "Physician Review" "clinical_decision"
          (Some (dumps (PDict [(KStr "decision", PStr decision);
                               (KStr "doctor", PStr doctor);
                               (KStr "comment", PStr comment);
                               (KStr "timestamp", PStr now_iso)]))) now] /\
     pending s' = [] /\ next_id s' = S (next_id s)).
Proof.
  intros [c p n] Hclean. simpl in Hclean. subst p.
  split; [|split; [|split]]; intros; simpl;
    repeat split; first [reflexivity | lia | f_equal; lia].
Qed.

Lemma C7_witness :
  pending (s_clean [] 1) = [] /\
  save_research (Some "database is locked") "2025-11-27T14:32:00" "melanoma_workflow_2025"
    "q" "melanoma" (PDict [(KStr "grade", PStr "1B")]) (s_clean [] 1)
  = (Raised "database is locked", s_clean [] 1).
Proof.
  split; [reflexivity|].
  apply (proj1 (writes_append_or_rollback (s_clean [] 1) eq_refl)).
Defined.

End MemoryServiceProps.

Module JsonProps.
Import Json.

Lemma pykey_eqb_spec (a b : pykey) : pykey_eqb a b = true <-> a = b.
Proof.
  destruct a as [x|x], b as [y|y]; simpl;
    try (split; intro H; discriminate).
  - rewrite String.eqb_eq. split; intro H; [subst|injection H]; auto.
  - rewrite Z.eqb_eq. split; intro H; [subst|injection H]; auto.
Qed.

Example nat_to_string_12 : nat_to_string 12 = "12".
Proof. reflexivity. Qed.

Lemma dict_set_fresh (d : dict) (k : pykey) (v : pyval) :
  ~ In k (map fst d) -> dict_set d k v = app d [(k, v)].
Proof.
  induction d as [|[k' v'] d IH]; intro Hn; simpl; [reflexivity|].
  simpl in Hn. destruct (pykey_eqb k k') eqn:E.
  - apply pykey_eqb_spec in E. subst. exfalso. apply Hn. left. reflexivity.
  - rewrite IH; [reflexivity|]. intro H. apply Hn. right. exact H.
Qed.

Lemma keys_distinct_head (k : pykey) (t : list pykey) :
  keys_distinct (k :: t) = true -> ~ In k t /\ keys_distinct t = true.
Proof.
  simpl. intro H. apply andb_true_iff in H as [H1 H2]. split; [|exact H2].
  intro Hin. apply negb_true_iff in H1.
  assert (existsb (pykey_eqb k) t = true) as Ht.
  { apply existsb_exists. exists k. split; [exact Hin|]. apply pykey_eqb_spec. reflexivity. }
  congruence.
Qed.

Lemma set_members_native (d acc : dict) :
  Forall (fun kv => json_native (snd kv) = true -> loads (dumps (snd kv)) = snd kv) d ->
  forallb (fun kv => match fst kv with
                     | KStr _ => json_native (snd kv)
                     | KInt _ => false
                     end) d = true ->
  keys_distinct (map fst d) = true ->
  (forall k, In k (map fst d) -> ~ In k (map fst acc)) ->
  set_members loads acc (map (fun kv => (key_to_string (fst kv), dumps (snd kv))) d) = app acc d.
Proof.
  revert acc. induction d as [|[k v] t IH]; intros acc Hrt Hstr Hdist Hfresh.
  - simpl. rewrite app_nil_r. reflexivity.
  - simpl in Hstr. destruct k as [s|z]; [|discriminate].
    apply andb_true_iff in Hstr as [Hv Ht].
    inversion Hrt as [|? ? Hv_rt Ht_rt]; subst.
    apply keys_distinct_head in Hdist as [Hnin Hdist].
    simpl in Hv_rt. simpl. rewrite (Hv_rt Hv).
    rewrite dict_set_fresh by (apply Hfresh; left; reflexivity).
    rewrite IH; [rewrite <- app_assoc; reflexivity | exact Ht_rt | exact Ht | exact Hdist |].
    intros k Hk Hin. rewrite map_app, in_app_iff in Hin. destruct Hin as [Hin|Hin].
    + apply (Hfresh k); [right; exact Hk | exact Hin].
    + simpl in Hin. destruct Hin as [Heq|[]]. subst. contradiction.
Qed.

(** [json.loads(json.dumps(v))] is [v] for the values JSON represents
    as they are. *)
Lemma loads_dumps (v : pyval) : json_native v = true -> loads (dumps v) = v.
Proof.
  induction v as [| | | | |l IH|l IH|d IH] using pyval_ind'; intro Hn; try reflexivity.
  - simpl in *. f_equal. induction l as [|x t IHt]; [reflexivity|].
    simpl in Hn. apply andb_true_iff in Hn as [Hx Ht].
    inversion IH as [|? ? Hxr Htr]; subst. simpl. rewrite (Hxr Hx). f_equal.
    exact (IHt Htr Ht).
  - discriminate.
  - simpl in Hn. apply andb_true_iff in Hn as [Hdist Hstr].
    simpl. f_equal. apply set_members_native; auto.
Qed.

End JsonProps.

Module MemoryRoundtripProps.
Import Json MemoryService MemoryServiceProps JsonProps.

Lemma find_app_skip (f : row -> bool) (l l' : list row) :
  (forall x, In x l -> f x = false) -> find f (app l l') = find f l'.
Proof.
  induction l as [|x t IH]; intro H; simpl; [reflexivity|].
  rewrite (H x (or_introl eq_refl)). apply IH. intros y Hy. apply H. right. exact Hy.
Qed.

(** Claim C8, as stated, fails: [get_session] returns the first row
    stored under the identifier, so after a second [save_research] under
    an identifier already in use it reads back the earlier payload; and a
    tuple in the payload comes back as a list. *)
Lemma roundtrip_counterexample :
  ~ roundtrip_claim /\
  get_session "s"
    (snd (save_research None "t" "s" "q" "melanoma" (PTuple [PInt 1]) (s_clean [] 1)))
  = Some (mkView 1 "q" "melanoma" (PList [PInt 1]) "t").
Proof.
  split; [|reflexivity].
  intro H.
  set (old := PDict [(KStr "grade", PStr "2C")]).
  set (new := PDict [(KStr "grade", PStr "1B")]).
  set (s0 := s_clean [mkRow 1 "melanoma_workflow_2025" "q" "melanoma" (Some (dumps old)) "t0"] 2).
  destruct (H s0 "t1" "melanoma_workflow_2025" "q" "melanoma" new 2%nat
               (snd (save_research None "t1" "melanoma_workflow_2025" "q" "melanoma" new s0))
               eq_refl) as [v [Hget Hf]].
  vm_compute in Hget. injection Hget as <-. vm_compute in Hf. discriminate.
Qed.

Lemma find_app (f : row -> bool) (l l' : list row) :
  find f (app l l') = match find f l with Some x => Some x | None => find f l' end.
Proof.
  induction l as [|x t IH]; simpl; [reflexivity|]. destruct (f x); [reflexivity | exact IH].
Qed.

Lemma save_research_success (c : list row) (n : nat) now sid q ct payload :
  save_research None now sid q ct payload (mkSession c [] n) =
    (Returned n, mkSession (app c [mkRow n sid q ct (Some (dumps payload)) now]) [] (S n)).
Proof. cbn. rewrite Nat.add_1_r. reflexivity. Qed.

Lemma get_session_after_save (c : list row) (n : nat) now sid q ct payload :
  get_session sid (mkSession (app c [mkRow n sid q ct (Some (dumps payload)) now]) [] (S n)) =
    match get_session sid (mkSession c [] n) with
    | Some v => Some v
    | None => Some (mkView n q ct (loads (dumps payload)) now)
    end.
Proof.
  unfold get_session, first_with. cbn [committed]. rewrite find_app.
  destruct (find (fun r => String.eqb (session_id r) sid) c); [reflexivity|].
  cbn. rewrite String.eqb_refl. reflexivity.
Qed.

(** Claim C8, amended.  After a successful [save_research] under [sid],
    [get_session sid] returns the first row stored under [sid]: the row
    stored earlier, unchanged, if there is one, and otherwise the new row,
    whose findings are the payload after the JSON round trip
    ([json.loads(json.dumps(payload))]).  That is the payload itself
    when no row was stored under [sid] before and the payload is one JSON
    represents as it is (no tuple, string keys only). *)
Theorem roundtrip_first_row :
  forall s now sid q ct payload,
    pending s = [] ->
    let '(res, s') := save_research None now sid q ct payload s in
    res = Returned (next_id s) /\
    get_session sid s' =
      match get_session sid s with
      | Some v => Some v
      | None => Some (mkView (next_id s) q ct (loads (dumps payload)) now)
      end /\
    (get_session sid s = None -> json_native payload = true ->
       get_session sid s' = Some (mkView (next_id s) q ct payload now)).
Proof.
  intros [c p n] now sid q ct payload Hclean. cbn [pending] in Hclean. subst p.
  rewrite save_research_success. cbn [next_id].
  split; [reflexivity|]. rewrite get_session_after_save.
  split; [reflexivity|].
  intros Hnone Hnat. rewrite Hnone, (loads_dumps payload Hnat). reflexivity.
Qed.

Lemma C8_witness :
  let sid := "melanoma_workflow_2025" in
  let old := PDict [(KStr "grade", PStr "2C")] in
  let payload := PDict [(KStr "grade", PStr "1B"); (KStr "total_papers", PInt 18)] in
  let s0 := snd (save_research None "t0" sid "q" "melanoma" old (s_clean [] 1)) in
  (pending s0 = [] /\
   (let '(res, s') := save_research None "t1" sid "q" "melanoma" payload s0 in
    res = Returned (next_id s0) /\
    get_session sid s' =
      match get_session sid s0 with
      | Some v => Some v
      | None => Some (mkView (next_id s0) "q" "melanoma" (loads (dumps payload)) "t1")
      end /\
    (get_session sid s0 = None -> json_native payload = true ->
       get_session sid s' = Some (mkView (next_id s0) "q" "melanoma" payload "t1")))) /\
  (pending (s_clean [] 1) = [] /\ get_session sid (s_clean [] 1) = None /\
   json_native payload = true /\
   get_session sid (snd (save_research None "t" sid "q" "melanoma" payload (s_clean [] 1)))
     = Some (mkView 1 "q" "melanoma" payload "t")).
Proof.
  intros sid old payload s0. split.
  - split; [reflexivity|].
    exact (roundtrip_first_row s0 "t1" sid "q" "melanoma" payload eq_refl).
  - split; [reflexivity|]. split; [reflexivity|]. split; [reflexivity|].
    exact (proj2 (proj2 (roundtrip_first_row (s_clean [] 1) "t" sid "q" "melanoma" payload eq_refl))
             eq_refl eq_refl).
Defined.

End MemoryRoundtripProps.

(* ------------------------------------------------------------------ *)
(** ** The memory service over a sequence of calls *)
Module MemoryOpsProps.
Import Json MemoryService MemoryOps.

Lemma run_op_prefix (o : op) (s : db_session) :
  exists rows, committed (run_op o s) = app (committed s) rows.
Proof.
  destruct s as [c p n]; destruct o as [[msg|] now sid q ct payload|[msg|] now_iso now sid d doc cm];
    simpl; eexists; first [reflexivity | symmetry; apply app_nil_r].
Qed.

Lemma run_prefix (ops : list op) (s : db_session) :
  exists rows, committed (run ops s) = app (committed s) rows.
Proof.
  revert s; induction ops as [|o t IH]; intro s; simpl.
  - exists []. symmetry. apply app_nil_r.
  - destruct (run_op_prefix o s) as [r1 H1]. destruct (IH (run_op o s)) as [r2 H2].
    exists (app r1 r2). rewrite H2, H1. symmetry. apply app_assoc.
Qed.

Lemma run_op_clean (o : op) (s : db_session) :
  pending s = [] ->
  pending (run_op o s) = [] /\
  exists rows, committed (run_op o s) = app (committed s) rows /\
    map row_id rows = seq (next_id s) (length rows) /\
    next_id (run_op o s) = (next_id s + length rows)%nat.
Proof.
  destruct s as [c p n]; simpl; intro Hp; subst p.
  destruct o as [[msg|] now sid q ct payload|[msg|] now_iso now sid d doc cm]; simpl;
    (split; [reflexivity|]).
  all: first [ exists []; simpl; rewrite app_nil_r; repeat split; lia
             | eexists [_]; simpl; repeat split; lia ].
Qed.

Lemma run_op_failed (o : op) (s : db_session) :
  pending s = [] -> op_ok o = false -> run_op o s = s.
Proof.
  destruct s as [c p n]; simpl; intro Hp; subst p.
  destruct o as [[msg|] now sid q ct payload|[msg|] now_iso now sid d doc cm];
    simpl; intro H; first [reflexivity | discriminate].
Qed.

Lemma find_app_some (f : row -> bool) (l l' : list row) (x : row) :
  find f l = Some x -> find f (app l l') = Some x.
Proof.
  induction l as [|y t IH]; simpl; [discriminate|].
  destruct (f y); [exact (fun H => H) | exact IH].
Qed.

(** Between two calls no entry is waiting, and the rows the service
    writes get consecutive ids: whatever calls are made and whichever
    commits fail, the rows stored before are kept in place, no entry is
    left waiting, and the new rows are numbered [next_id s], [next_id s
    + 1], ... with the next id just after them. *)
Theorem run_appends_numbered_rows :
  forall ops s, pending s = [] ->
    pending (run ops s) = [] /\
    exists rows, committed (run ops s) = app (committed s) rows /\
      map row_id rows = seq (next_id s) (length rows) /\
      next_id (run ops s) = (next_id s + length rows)%nat.
Proof.
  induction ops as [|o t IH]; intros s Hp; simpl.
  - split; [exact Hp|]. exists []. rewrite app_nil_r. simpl. repeat split; lia.
  - destruct (run_op_clean o s Hp) as [Hp1 [r1 [Hc1 [Hi1 Hn1]]]].
    destruct (IH (run_op o s) Hp1) as [Hp2 [r2 [Hc2 [Hi2 Hn2]]]].
    split; [exact Hp2|]. exists (app r1 r2).
    rewrite Hc2, Hc1, <- app_assoc. split; [reflexivity|].
    rewrite map_app, length_app, seq_app, Hi1, Hi2, Hn1.
    split; [reflexivity|]. rewrite Hn2, Hn1. lia.
Qed.

Lemma run_appends_numbered_rows_witness :
  pending (s_clean [] 1) = [] /\
  (let ops := [OpResearch None "t0" "a" "q" "melanoma" PNone;
               OpReview (Some "locked") "t1" "t1" "a" "approved" "dr" "c";
               OpReview None "t2" "t2" "b" "approved" "dr" "c"] in
   pending (run ops (s_clean [] 1)) = [] /\
   exists rows, committed (run ops (s_clean [] 1)) = app (committed (s_clean [] 1)) rows /\
     map row_id rows = seq (next_id (s_clean [] 1)) (length rows) /\
     next_id (run ops (s_clean [] 1)) = (next_id (s_clean [] 1) + length rows)%nat).
Proof.
  split; [reflexivity|]. apply run_appends_numbered_rows. reflexivity.
Defined.

(** A write whose commit fails leaves no trace: from a session with no
    entry waiting, running a sequence of calls gives the same session as
    running only the calls whose commit succeeds. *)
Theorem failed_writes_invisible :
  forall ops s, pending s = [] -> run ops s = run (filter op_ok ops) s.
Proof.
  induction ops as [|o t IH]; intros s Hp; simpl; [reflexivity|].
  case_eq (op_ok o); intro Hok; simpl.
  - apply IH. apply (run_op_clean o s Hp).
  - rewrite (run_op_failed o s Hp Hok). apply IH. exact Hp.
Qed.

Lemma failed_writes_invisible_witness :
  pending (s_clean [] 4) = [] /\
  run [OpReview (Some "disk full") "t" "t" "a" "approved" "dr" "c";
       OpResearch None "t" "a" "q" "melanoma" PNone] (s_clean [] 4)
  = run (filter op_ok [OpReview (Some "disk full") "t" "t" "a" "approved" "dr" "c";
                       OpResearch None "t" "a" "q" "melanoma" PNone]) (s_clean [] 4).
Proof.
  split; [reflexivity|]. apply failed_writes_invisible. reflexivity.
Defined.

(** What [get_session] returns for a session id never changes once a
    row is stored under it: later writes, successful or not, append after
    the first row, which [.first()] keeps returning. *)
Theorem get_session_stable :
  forall sid s v ops, get_session sid s = Some v -> get_session sid (run ops s) = Some v.
Proof.
  intros sid s v ops. unfold get_session, first_with.
  destruct (run_prefix ops s) as [rows Hc]. rewrite Hc.
  case_eq (find (fun r => String.eqb (session_id r) sid) (committed s));
    [intros r Hr Hv | intros _ H; discriminate].
  rewrite (find_app_some _ _ rows r Hr). exact Hv.
Qed.

Lemma get_session_stable_witness :
  let s0 := snd (save_research None "t0" "a" "q" "melanoma" (PInt 1) (s_clean [] 1)) in
  get_session "a" s0 = Some (mkView 1 "q" "melanoma" (PInt 1) "t0") /\
  get_session "a" (run [OpResearch None "t1" "a" "q2" "melanoma" (PInt 2)] s0)
    = Some (mkView 1 "q" "melanoma" (PInt 1) "t0").
Proof.
  intro s0. split; [reflexivity|].
  apply get_session_stable. reflexivity.
Defined.

(** [get_session] returns [None] exactly when no stored row carries the
    session id. *)
Theorem get_session_none_iff :
  forall sid s,
    get_session sid s = None <-> (forall r, In r (committed s) -> session_id r <> sid).
Proof.
  intros sid s. unfold get_session, first_with.
  split.
  - case_eq (find (fun r => String.eqb (session_id r) sid) (committed s));
      [intros r _ H; discriminate|].
    intros Hf _ r Hin Heq.
    pose proof (find_none _ _ Hf r Hin) as H. simpl in H.
    rewrite Heq, String.eqb_refl in H. discriminate.
  - intro H. induction (committed s) as [|r t IH]; simpl; [reflexivity|].
    rewrite (proj2 (String.eqb_neq (session_id r) sid) (H r (or_introl eq_refl))).
    apply IH. intros x Hx. exact (H x (or_intror Hx)).
Qed.

End MemoryOpsProps.

(* ------------------------------------------------------------------ *)
(** ** Physician reviews, the approval log and the archive of [main] *)
Module ReviewLogProps.
Import ClinicalReasoner DoctorAgent LiteratureAgent Supervisor Json MemoryService
  ApprovalWorkflow Main.

Lemma approve_test (rep : report) :
  String.eqb (decision_label (doctor_decision (doctor_review rep))) "approve" =
  match doctor_decision (doctor_review rep) with Approve => true | Modify => false end.
Proof. destruct (doctor_decision (doctor_review rep)); reflexivity. Qed.

(** A physician review saved under a session id with no row yet reads
    back through [get_session] as the query ["Physician Review"], the
    cancer type ["clinical_decision"] and the four-key record (decision,
    doctor, comment, the ISO timestamp of the first clock reading), with
    the second clock reading as the row's timestamp. *)
Theorem review_roundtrip :
  forall s now_iso now sid decision doctor comment,
    pending s = [] ->
    (forall r, In r (committed s) -> session_id r <> sid) ->
    let '(res, s') := save_doctor_review None now_iso now sid decision doctor comment s in
    res = Returned (next_id s) /\
    get_session sid s' =
      Some (mkView (next_id s) "Physician Review" "clinical_decision"
              (review_record decision doctor comment now_iso) now).
Proof.
  intros [c p n] now_iso now sid decision doctor comment Hclean Hfresh.
  simpl in Hclean, Hfresh. subst p.
  simpl. split; [f_equal; lia|].
  unfold get_session, first_with. simpl.
  rewrite MemoryRoundtripProps.find_app_skip.
  - simpl. rewrite String.eqb_refl. reflexivity.
  - intros x Hx. apply String.eqb_neq. apply Hfresh. exact Hx.
Qed.

Lemma review_roundtrip_witness :
  pending (s_clean [] 3) = [] /\
  (let '(res, s') := save_doctor_review None "2025-11-27T14:32:00" "t" "rev1" "modify" "dr"
                       "dose" (s_clean [] 3) in
   res = Returned (next_id (s_clean [] 3)) /\
   get_session "rev1" s' =
     Some (mkView (next_id (s_clean [] 3)) "Physician Review" "clinical_decision"
             (review_record "modify" "dr" "dose" "2025-11-27T14:32:00") "t")).
Proof.
  split; [reflexivity|].
  apply (review_roundtrip (s_clean [] 3) "2025-11-27T14:32:00" "t" "rev1" "modify" "dr" "dose"
           eq_refl (fun r (H : In r []) => match H with end)).
Defined.

(** [log_doctor_approval] stores one review row whose comment is the
    fixed approval text and returns nothing; when the commit fails the
    error propagates and the session is as before. *)
Theorem approval_log_effect :
  forall s now_iso now sid decision doctor,
    pending s = [] ->
    (forall msg, log_doctor_approval (Some msg) now_iso now sid decision doctor s = (Raised msg, s)) /\
    log_doctor_approval None now_iso now sid decision doctor s =
      (Returned tt,
       mkSession (app (committed s)
                    [review_row (next_id s) sid decision doctor APPROVAL_COMMENT now_iso now])
         [] (S (next_id s))).
Proof.
  intros [c p n] now_iso now sid decision doctor Hclean. simpl in Hclean. subst p.
  split; [intro msg; reflexivity|].
  cbn. rewrite Nat.add_1_r. reflexivity.
Qed.

Lemma approval_log_effect_witness :
  pending (s_clean [] 1) = [] /\
  log_doctor_approval None "i" "t" APPROVAL_SID "approved" DOCTOR_NAME (s_clean [] 1) =
    (Returned tt,
     mkSession (app (committed (s_clean [] 1))
                  [review_row (next_id (s_clean [] 1)) APPROVAL_SID "approved" DOCTOR_NAME
                     APPROVAL_COMMENT "i" "t"])
       [] (S (next_id (s_clean [] 1)))).
Proof.
  split; [reflexivity|].
  apply (proj2 (approval_log_effect (s_clean [] 1) "i" "t" APPROVAL_SID "approved" DOCTOR_NAME
                  eq_refl)).
Defined.

(** When both commits succeed, [main] archives the run: on an approved
    recommendation it first stores the approval row under
    ["melanoma_clinical_review_2025"], then the findings row under
    ["melanoma_workflow_2025"]; on a modified one only the findings row. *)
Theorem main_run_rows :
  forall rep s now_iso now now',
    pending s = [] ->
    let '(res, s') := main_run rep None None now_iso now now' s in
    res = Returned None /\ pending s' = [] /\
    match doctor_decision (doctor_review rep) with
    | Approve =>
        committed s' = app (committed s)
          [review_row (next_id s) APPROVAL_SID "approved" (doctor_name (doctor_review rep))
             APPROVAL_COMMENT now_iso now;
           session_row (S (next_id s)) rep now'] /\
        next_id s' = (next_id s + 2)%nat
    | Modify =>
        committed s' = app (committed s) [session_row (next_id s) rep now'] /\
        next_id s' = S (next_id s)
    end.
Proof.
  intros rep [c p n] now_iso now now' Hclean. simpl in Hclean. subst p.
  unfold main_run, main_writes. rewrite approve_test.
  destruct (doctor_decision (doctor_review rep)); cbn;
    rewrite ?Nat.add_1_r, <- ?app_assoc; repeat split; try reflexivity; lia.
Qed.

Lemma main_run_rows_witness :
  let approved := process_query (LitSuccess (mkPayload MAIN_QUERY 12 [] 12 0 "Retrieved"))
                    (AnSuccess (1#1000) (Some (24#1)) (Some (8#1)) "" "fig.png") in
  let modified := process_query (LitError "timeout" MAIN_QUERY) (AnError "no data") in
  doctor_decision (doctor_review approved) = Approve /\
  doctor_decision (doctor_review modified) = Modify /\
  pending (s_clean [] 1) = [] /\
  (let '(res, s') := main_run approved None None "i" "t" "t'" (s_clean [] 1) in
   res = Returned None /\ pending s' = [] /\
   committed s' = app (committed (s_clean [] 1))
     [review_row (next_id (s_clean [] 1)) APPROVAL_SID "approved"
        (doctor_name (doctor_review approved)) APPROVAL_COMMENT "i" "t";
      session_row (S (next_id (s_clean [] 1))) approved "t'"] /\
   next_id s' = (next_id (s_clean [] 1) + 2)%nat) /\
  (let '(res, s') := main_run modified None None "i" "t" "t'" (s_clean [] 1) in
   res = Returned None /\ pending s' = [] /\
   committed s' = app (committed (s_clean [] 1)) [session_row (next_id (s_clean [] 1)) modified "t'"] /\
   next_id s' = S (next_id (s_clean [] 1))).
Proof.
  intros approved modified.
  split; [vm_compute; reflexivity|]. split; [vm_compute; reflexivity|].
  split; [reflexivity|]. split.
  - exact (main_run_rows approved (s_clean [] 1) "i" "t" "t'" eq_refl).
  - exact (main_run_rows modified (s_clean [] 1) "i" "t" "t'" eq_refl).
Defined.

(** A failed write in [main] is reported, not raised.  If the approval
    log fails, the findings are not archived and the session is
    unchanged; if the archive fails, the approval row already committed
    stays. *)
Theorem main_run_failures :
  forall rep s now_iso now now',
    pending s = [] ->
    (forall msg engine_session,
       doctor_decision (doctor_review rep) = Approve ->
       main_run rep (Some msg) engine_session now_iso now now' s = (Returned (Some msg), s)) /\
    (forall msg,
       let '(res, s') := main_run rep None (Some msg) now_iso now now' s in
       res = Returned (Some msg) /\ pending s' = [] /\
       match doctor_decision (doctor_review rep) with
       | Approve =>
           committed s' = app (committed s)
             [review_row (next_id s) APPROVAL_SID "approved" (doctor_name (doctor_review rep))
                APPROVAL_COMMENT now_iso now] /\
           next_id s' = S (next_id s)
       | Modify => committed s' = committed s /\ next_id s' = next_id s
       end).
Proof.
  intros rep [c p n] now_iso now now' Hclean. simpl in Hclean. subst p.
  unfold main_run, main_writes. rewrite approve_test.
  split.
  - intros msg es Hd. rewrite Hd. reflexivity.
  - intro msg. destruct (doctor_decision (doctor_review rep)); cbn;
      rewrite ?Nat.add_1_r; repeat split.
Qed.

Lemma main_run_failures_witness :
  let approved := process_query (LitSuccess (mkPayload MAIN_QUERY 12 [] 12 0 "Retrieved"))
                    (AnSuccess (1#1000) (Some (24#1)) (Some (8#1)) "" "fig.png") in
  let modified := process_query (LitError "timeout" MAIN_QUERY) (AnError "no data") in
  pending (s_clean [] 1) = [] /\
  doctor_decision (doctor_review approved) = Approve /\
  main_run approved (Some "locked") None "i" "t" "t'" (s_clean [] 1)
    = (Returned (Some "locked"), s_clean [] 1) /\
  (let '(res, s') := main_run approved None (Some "locked") "i" "t" "t'" (s_clean [] 1) in
   res = Returned (Some "locked") /\ pending s' = [] /\
   committed s' = app (committed (s_clean [] 1))
     [review_row (next_id (s_clean [] 1)) APPROVAL_SID "approved"
        (doctor_name (doctor_review approved)) APPROVAL_COMMENT "i" "t"] /\
   next_id s' = S (next_id (s_clean [] 1))) /\
  (let '(res, s') := main_run modified None (Some "locked") "i" "t" "t'" (s_clean [] 1) in
   res = Returned (Some "locked") /\ pending s' = [] /\
   committed s' = committed (s_clean [] 1) /\ next_id s' = next_id (s_clean [] 1)).
Proof.
  intros approved modified.
  assert (Hd : doctor_decision (doctor_review approved) = Approve) by (vm_compute; reflexivity).
  destruct (main_run_failures approved (s_clean [] 1) "i" "t" "t'" eq_refl) as [H1 H2].
  split; [reflexivity|]. split; [exact Hd|]. split; [exact (H1 "locked" None Hd)|]. split.
  - exact (H2 "locked").
  - exact (proj2 (main_run_failures modified (s_clean [] 1) "i" "t" "t'" eq_refl) "locked").
Defined.

(** On a store with no row yet under ["melanoma_workflow_2025"], the
    findings [main] archives read back unchanged through [get_session]. *)
Theorem main_findings_roundtrip :
  forall rep s now_iso now now',
    pending s = [] ->
    (forall r, In r (committed s) -> session_id r <> WORKFLOW_SID) ->
    exists v, get_session WORKFLOW_SID (snd (main_run rep None None now_iso now now' s)) = Some v /\
      v_query v = MAIN_QUERY /\ v_cancer_type v = "melanoma" /\
      v_findings v = main_findings rep.
Proof.
  intros rep [c p n] now_iso now now' Hclean Hfresh. simpl in Hclean, Hfresh. subst p.
  unfold main_run, main_writes. rewrite approve_test.
  unfold get_session, first_with.
  destruct (doctor_decision (doctor_review rep)) eqn:Hd; cbn;
    rewrite <- ?app_assoc; rewrite MemoryRoundtripProps.find_app_skip;
    try (intros x Hx; apply String.eqb_neq; apply Hfresh; exact Hx);
    cbn; eexists; (split; [reflexivity|]); repeat split; cbn [v_findings];
    unfold main_findings; rewrite Hd; destruct (literature rep), (analysis_res rep); reflexivity.
Qed.

Lemma main_findings_roundtrip_witness :
  let rep := process_query (LitError "timeout" MAIN_QUERY) (AnError "no data") in
  pending (s_clean [] 1) = [] /\
  exists v, get_session WORKFLOW_SID (snd (main_run rep None None "i" "t" "t'" (s_clean [] 1)))
              = Some v /\
    v_query v = MAIN_QUERY /\ v_cancer_type v = "melanoma" /\ v_findings v = main_findings rep.
Proof.
  intro rep. split; [reflexivity|].
  apply (main_findings_roundtrip rep (s_clean [] 1) "i" "t" "t'" eq_refl
           (fun r (H : In r []) => match H with end)).
Defined.

End ReviewLogProps.

(* ------------------------------------------------------------------ *)
(** ** Failed stages as [main] archives them and the dashboard shows them *)
Module FailedStageDisplayProps.
Import ClinicalReasoner DoctorAgent LiteratureAgent Supervisor Main Dashboard.

(** A failed analysis is archived by [main] with a [null] p-value, the
    grade 2C, the decision "modify" and confidence 0.62, although the
    scorer read a p-value of 1.0; a failed literature search is archived
    with a [null] paper count, although the scorer read 0. *)
Theorem failed_stages_archived_as_null :
  (forall lit e,
     main_findings (process_query lit (AnError e)) =
       PDict [(KStr "total_papers", lit_total_found_opt lit); (KStr "p_value", PNone);
              (KStr "grade", PStr "2C"); (KStr "physician_decision", PStr "modify");
              (KStr "confidence", PFloat (62#100))] /\
     p_value (build_evidence lit (AnError e)) = 1) /\
  (forall e q an,
     dict_get (match main_findings (process_query (LitError e q) an) with
               | PDict d => d | _ => [] end) (KStr "total_papers") = Some PNone /\
     total_papers (build_evidence (LitError e q) an) = 0%nat).
Proof.
  split; intros; split; reflexivity.
Qed.

(** The dashboard's p-value metric equals the p-value the scorer used
    exactly when the analysis succeeded; after a failed analysis it shows
    0, the most significant value, while the scorer used 1.0 and graded
    the evidence 2C. *)
Theorem dashboard_p_value_metric :
  forall lit an,
    let rep := process_query lit an in
    Qeq_bool (p_value_metric rep) (p_value (build_evidence lit an)) =
      match an with AnSuccess _ _ _ _ _ => true | AnError _ => false end /\
    (forall e, an = AnError e ->
       p_value_metric rep = 0 /\ grade (rep_recommendation rep) = "2C" /\
       papers_metric rep = total_papers (build_evidence lit an)).
Proof.
  intros lit an rep. subst rep. split.
  - destruct an as [p m1 m2 sm fp|e]; cbn.
    + apply Qeq_bool_iff. reflexivity.
    + reflexivity.
  - intros e He. subst an. repeat split.
Qed.

End FailedStageDisplayProps.

(* ------------------------------------------------------------------ *)
(** ** Dictionary lookups after [{"source": "PubMed", **p}] *)
Module TagPubmedProps.
Import Json LiteratureAgent.

Lemma dict_get_set_same (d : dict) (k : pykey) (v : pyval) :
  dict_get (dict_set d k v) k = Some v.
Proof.
  induction d as [|[k' v'] d IH]; simpl.
  - rewrite (proj2 (JsonProps.pykey_eqb_spec k k) eq_refl). reflexivity.
  - destruct (pykey_eqb k k') eqn:E; simpl; rewrite E; [reflexivity | exact IH].
Qed.

Lemma dict_get_set_other (d : dict) (k k2 : pykey) (v : pyval) :
  pykey_eqb k2 k = false -> dict_get (dict_set d k v) k2 = dict_get d k2.
Proof.
  intro Hne. induction d as [|[k' v'] d IH]; simpl.
  - rewrite Hne. reflexivity.
  - destruct (pykey_eqb k k') eqn:E; simpl.
    + apply JsonProps.pykey_eqb_spec in E. subst k'. rewrite Hne. reflexivity.
    + rewrite IH. reflexivity.
Qed.

Lemma dict_get_app (l l' : dict) (k : pykey) :
  dict_get (app l l') k = match dict_get l k with Some v => Some v | None => dict_get l' k end.
Proof.
  induction l as [|[k' v'] l IH]; simpl; [reflexivity|].
  destruct (pykey_eqb k k'); [reflexivity | exact IH].
Qed.

Lemma dict_get_absent (l : dict) (k : pykey) :
  ~ In k (map fst l) -> dict_get l k = None.
Proof.
  induction l as [|[k' v'] l IH]; simpl; intro Hn; [reflexivity|].
  destruct (pykey_eqb k k') eqn:E.
  - apply JsonProps.pykey_eqb_spec in E. subst. exfalso. apply Hn. left. reflexivity.
  - apply IH. intro H. apply Hn. right. exact H.
Qed.

Lemma dict_update_get (acc p : dict) (k : pykey) :
  dict_get (dict_update acc p) k =
    match dict_get (rev p) k with Some v => Some v | None => dict_get acc k end.
Proof.
  unfold dict_update. revert acc.
  induction p as [|[k' v'] p IH]; intro acc; simpl; [reflexivity|].
  rewrite IH, dict_get_app.
  destruct (dict_get (rev p) k); [reflexivity|]. simpl.
  destruct (pykey_eqb k k') eqn:E.
  - apply JsonProps.pykey_eqb_spec in E. subst k'. apply dict_get_set_same.
  - apply dict_get_set_other. exact E.
Qed.

Lemma dict_get_rev (p : dict) (k : pykey) :
  Json.keys_distinct (map fst p) = true -> dict_get (rev p) k = dict_get p k.
Proof.
  induction p as [|[k' v'] p IH]; intro Hd; simpl; [reflexivity|].
  apply JsonProps.keys_distinct_head in Hd as [Hn Hd].
  rewrite dict_get_app, (IH Hd). simpl.
  destruct (pykey_eqb k k') eqn:E.
  - apply JsonProps.pykey_eqb_spec in E. subst k'.
    rewrite (dict_get_absent p k Hn). reflexivity.
  - destruct (dict_get p k); reflexivity.
Qed.

(** In a PubMed paper tagged by [query], ["source"] is the paper's own
    value when it has one and ["PubMed"] otherwise; every other key reads
    as in the paper. *)
Theorem tag_pubmed_lookup :
  forall (p : paper) k,
    Json.keys_distinct (map fst p) = true ->
    dict_get (tag_pubmed p) k =
      if pykey_eqb k (KStr "source")
      then match dict_get p k with Some v => Some v | None => Some (PStr "PubMed") end
      else dict_get p k.
Proof.
  intros p k Hd. unfold tag_pubmed. rewrite dict_update_get, (dict_get_rev p k Hd). simpl.
  destruct (pykey_eqb k (KStr "source")); destruct (dict_get p k); reflexivity.
Qed.

Lemma tag_pubmed_lookup_witness :
  let p := [(KStr "title", PStr "KEYNOTE-006"); (KStr "source", PStr "PubMed Central")] in
  Json.keys_distinct (map fst p) = true /\
  dict_get (tag_pubmed p) (KStr "source") =
    (if pykey_eqb (KStr "source") (KStr "source")
     then match dict_get p (KStr "source") with Some v => Some v | None => Some (PStr "PubMed") end
     else dict_get p (KStr "source")).
Proof.
  intro p. split; [reflexivity|]. apply tag_pubmed_lookup. reflexivity.
Defined.

End TagPubmedProps.

(* ------------------------------------------------------------------ *)
(** ** The Google Scholar result page *)
Module ScholarToolProps.
Import LiteratureAgent ScholarTool.




Lemma parse_items_in (l : list item) (p : paper) :
  In p (parse_items l) -> exists it, In it l /\ parse_item it = Some p.
Proof.
  induction l as [|it t IH]; simpl; [contradiction|].
  destruct (parse_item it) as [q|] eqn:E.
  - intros [H|H].
    + subst q. exists it. split; [left; reflexivity | exact E].
    + destruct (IH H) as [it' [H1 H2]]. exists it'. split; [right; exact H1 | exact H2].
  - intro H. destruct (IH H) as [it' [H1 H2]]. exists it'. split; [right; exact H1 | exact H2].
Qed.



End ScholarToolProps.

(* ------------------------------------------------------------------ *)
(** ** The survival analysis as the supervisor sees it *)
Module AnalysisProps.
Import ClinicalReasoner DoctorAgent LiteratureAgent Supervisor Analysis.

Lemma qfloor_between (y : Q) (z : Z) :
  inject_Z z <= y -> y < inject_Z (z + 1) -> Qfloor y = z.
Proof.
  intros H1 H2.
  pose proof (Qfloor_le y) as F1. pose proof (Qlt_floor y) as F2.
  assert (A : (z < Qfloor y + 1)%Z).
  { rewrite Zlt_Qlt. apply Qle_lt_trans with y; assumption. }
  assert (B : (Qfloor y < z + 1)%Z).
  { rewrite Zlt_Qlt. apply Qle_lt_trans with y; assumption. }
  lia.
Qed.

(** [round(p_value, 4)] moves the p-value by at most half a unit of the
    fourth decimal: the value the scorer reads is within 0.00005 of the
    p-value the log-rank test computed. *)
Theorem round4_error_bound :
  forall x, Qabs (round4 x - x) <= 1#20000.
Proof.
  intro x. unfold round4.
  set (y := x * inject_Z 10000).
  assert (Ex : x == y * (1#10000)).
  { unfold y. change (inject_Z 10000) with (10000#1). field. }
  pose proof (Qfloor_le y) as F1. pose proof (Qlt_floor y) as F2.
  set (f := Qfloor y) in *. clearbody f y.
  rewrite inject_Z_plus in F2. change (inject_Z 1) with 1 in F2.
  assert (M : forall n : Z, Qmake n 10000 == inject_Z n * (1#10000)).
  { intro n. unfold Qeq. simpl. lia. }
  assert (M1 : inject_Z (f + 1) == inject_Z f + 1).
  { rewrite inject_Z_plus. reflexivity. }
  apply Qabs_Qle_condition.
  destruct (Qcompare (y - inject_Z f) (1#2)) eqn:C.
  - apply Qeq_alt in C. destruct (Z.even f); rewrite M, ?M1, Ex; split; lra.
  - apply Qlt_alt in C. rewrite M, Ex. split; lra.
  - apply Qgt_alt in C. rewrite M, M1, Ex. split; lra.
Qed.

(** When the rounded p-value the scorer reads is below 0.05, the
    interpretation text also calls the difference significant. *)
Theorem rounded_significant_implies_raw :
  forall fmt4 fstr p t m1 m2,
    qltb (an_p_value (analyze_survival fstr
            (perform_survival_analysis fmt4 fstr (Returned (p, t, m1, m2))))) (5#100) = true ->
    significance p = "statistically significant".
Proof.
  intros fmt4 fstr p t m1 m2 H. simpl in H.
  unfold significance. destruct (qltb p (5#100)) eqn:E; [reflexivity|]. exfalso.
  apply qltb_false, Qnot_lt_le in E. apply qltb_spec in H.
  unfold round4 in H.
  set (y := p * inject_Z 10000) in H.
  assert (Hy : inject_Z 500 <= y).
  { unfold y. change (inject_Z 500) with (500#1). change (inject_Z 10000) with (10000#1).
    lra. }
  pose proof (Qfloor_resp_le _ _ Hy) as Hf. rewrite Qfloor_Z in Hf.
  set (f := Qfloor y) in H, Hf.
  destruct (Qcompare (y - inject_Z f) (1#2)); [destruct (Z.even f)| |];
    clearbody f; unfold Qlt in H; simpl in H; lia.
Qed.

Lemma rounded_significant_implies_raw_witness :
  let fmt4 := fun _ : Q => "" in
  let fstr := fun _ : Q => "" in
  qltb (an_p_value (analyze_survival fstr
          (perform_survival_analysis fmt4 fstr (Returned (3#100, 7#1, Some (24#1), Some (8#1))))))
       (5#100) = true /\
  significance (3#100) = "statistically significant".
Proof.
  intros fmt4 fstr. split; [vm_compute; reflexivity|].
  apply (rounded_significant_implies_raw fmt4 fstr (3#100) (7#1) (Some (24#1)) (Some (8#1))).
  vm_compute. reflexivity.
Defined.

(** The converse fails: a raw p-value in (0.04995, 0.05) is reported as
    statistically significant in the interpretation, but it is rounded to
    0.05 before it reaches the scorer, which grades the evidence 2C, and
    the physician review asks for a modification. *)
Theorem rounding_flips_significance :
  forall fmt4 fstr p t m1 m2 lit,
    4995#100000 < p -> p < 5#100 ->
    let an := analyze_survival fstr (perform_survival_analysis fmt4 fstr (Returned (p, t, m1, m2))) in
    let rep := process_query lit an in
    significance p = "statistically significant" /\
    an_p_value an == 5#100 /\
    grade (rep_recommendation rep) = "2C" /\
    doctor_decision (doctor_review rep) = Modify.
Proof.
  intros fmt4 fstr p t m1 m2 lit H1 H2 an rep.
  assert (R : round4 p = Qmake 500 10000).
  { unfold round4.
    assert (F : Qfloor (p * inject_Z 10000) = 499%Z).
    { apply qfloor_between.
      - change (inject_Z 499) with (499#1). change (inject_Z 10000) with (10000#1). lra.
      - change (inject_Z (499 + 1)) with (500#1). change (inject_Z 10000) with (10000#1). lra. }
    rewrite F.
    assert (C : Qcompare (p * inject_Z 10000 - inject_Z 499) (1#2) = Gt).
    { apply Qgt_alt. change (inject_Z 499) with (499#1). change (inject_Z 10000) with (10000#1).
      lra. }
    rewrite C. reflexivity. }
  subst rep an. unfold significance.
  rewrite (proj2 (qltb_spec p (5#100)) H2).
  split; [reflexivity|]. cbn [analyze_survival perform_survival_analysis an_p_value].
  rewrite R. split; [reflexivity|].
  unfold process_query, build_evidence, generate_recommendation. cbn [an_p_value].
  split; reflexivity.
Qed.

Lemma rounding_flips_significance_witness :
  let fmt4 := fun _ : Q => "" in
  let fstr := fun _ : Q => "" in
  4995#100000 < 4998#100000 /\ 4998#100000 < 5#100 /\
  (let an := analyze_survival fstr
               (perform_survival_analysis fmt4 fstr
                  (Returned (4998#100000, 384#100, Some (24#1), Some (8#1)))) in
   let rep := process_query (LitError "timeout" "q") an in
   significance (4998#100000) = "statistically significant" /\
   an_p_value an == 5#100 /\
   grade (rep_recommendation rep) = "2C" /\
   doctor_decision (doctor_review rep) = Modify).
Proof.
  intros fmt4 fstr. split; [reflexivity|]. split; [reflexivity|].
  apply (rounding_flips_significance fmt4 fstr (4998#100000) (384#100) (Some (24#1)) (Some (8#1))
           (LitError "timeout" "q")); reflexivity.
Defined.

End AnalysisProps.

(* ------------------------------------------------------------------ *)
(** ** PubMed papers and the merged paper list *)
Module PubmedToolProps.
Import Json LiteratureAgent PubmedTool.

Lemma collect_authors_length (l : list author) (ns : list string) :
  collect_authors l = Returned ns -> (length ns <= length l)%nat.
Proof.
  revert ns. induction l as [|a t IH]; intros ns H; simpl in H.
  - injection H as <-. simpl. lia.
  - destruct (has_name_attrs a).
    + destruct (name_lookup a) as [n|e]; [|discriminate].
      destruct (collect_authors t) as [ns'|e]; [|discriminate].
      injection H as <-. simpl. specialize (IH ns' eq_refl). lia.
    + simpl. specialize (IH ns H). lia.
Qed.

Lemma parse_year_value (int_of : string -> option Z) (d : option pub_date) (y : pyval) :
  parse_year int_of d = Returned y -> y = PNone \/ exists z, y = PInt z.
Proof.
  unfold parse_year. destruct d as [d'|]; [|intro H; injection H as <-; left; reflexivity].
  destruct (date_truthy d'); [|intro H; injection H as <-; left; reflexivity].
  destruct d' as [z t|t].
  - intro H. injection H as <-. right. exists z. reflexivity.
  - destruct (int_of (substring 0 4 t)) as [z|]; [|discriminate].
    intro H. injection H as <-. right. exists z. reflexivity.
Qed.



Lemma parse_articles_in (int_of : string -> option Z) (l : list article) (p : paper) :
  In p (parse_articles int_of l) -> exists a, In a l /\ parse_article int_of a = Returned p.
Proof.
  induction l as [|a t IH]; simpl; [contradiction|].
  destruct (parse_article int_of a) as [q|e] eqn:E.
  - intros [H|H].
    + subst q. exists a. split; [left; reflexivity | exact E].
    + destruct (IH H) as [a' [H1 H2]]. exists a'. split; [right; exact H1 | exact H2].
  - intro H. destruct (IH H) as [a' [H1 H2]]. exists a'. split; [right; exact H1 | exact H2].
Qed.

Lemma parse_article_inv (int_of : string -> option Z) (a : article) (p : paper) :
  parse_article int_of a = Returned p ->
  exists pd year authors title abstract pmid journal,
    parse_year int_of pd = Returned year /\
    collect_authors (firstn 5 (match a_authors a with Some l => l | None => [] end))
      = Returned authors /\
    p = [(KStr "title", PStr (py_or title "No title available"));
         (KStr "authors", PList (map PStr (match authors with [] => ["Unknown"] | _ => authors end)));
         (KStr "abstract", PStr (py_or abstract "No abstract available"));
         (KStr "pmid", PStr pmid);
         (KStr "publication_date", PStr (date_text pd));
         (KStr "year", year);
         (KStr "journal", PStr (py_or journal "Unknown"))].
Proof.
  unfold parse_article, obind.
  destruct (get_attr (a_publication_date a)) as [pd|e]; [|discriminate].
  destruct (parse_year int_of pd) as [year|e] eqn:Ey; [|discriminate].
  destruct (collect_authors _) as [authors|e] eqn:Ea; [|discriminate].
  destruct (get_attr (a_title a)) as [title|e]; [|discriminate].
  destruct (get_attr (a_abstract a)) as [abstract|e]; [|discriminate].
  destruct (get_attr (a_pubmed_id a)) as [pmid|e]; [|discriminate].
  destruct (get_attr (a_journal a)) as [journal|e]; [|discriminate].
  intro H. injection H as <-.
  do 7 eexists. split; [exact Ey|]. split; reflexivity.
Qed.

(** The paper dictionaries of [search_pubmed]. *)
Lemma parse_article_shape (int_of : string -> option Z) (a : article) (p : paper) :
  parse_article int_of a = Returned p ->
  dict_get p (KStr "source") = None /\
  keys_distinct (map fst p) = true /\
  (exists ns, dict_get p (KStr "authors") = Some (PList (map PStr ns)) /\
              (1 <= length ns <= 5)%nat) /\
  (dict_get p (KStr "year") = Some PNone \/ exists z, dict_get p (KStr "year") = Some (PInt z)).
Proof.
  intro H.
  destruct (parse_article_inv int_of a p H)
    as [pd [y [ns [title [abstract [pmid [journal [Ey [Ea ->]]]]]]]]].
  split; [reflexivity|]. split; [reflexivity|]. split.
  - eexists. split; [reflexivity|].
    apply collect_authors_length in Ea. rewrite length_firstn in Ea.
    pose proof (Nat.le_min_l 5 (length (match a_authors a with Some l => l | None => [] end))).
    destruct ns as [|n ns]; cbn [length] in *; lia.
  - destruct (parse_year_value int_of _ y Ey) as [->|[z ->]]; [left|right; exists z]; reflexivity.
Qed.


Lemma nth_error_firstn_some {A} (n i : nat) (l : list A) (x : A) :
  nth_error (firstn n l) i = Some x -> nth_error l i = Some x.
Proof.
  revert i l. induction n as [|n IH]; intros i l H; [destruct i; discriminate|].
  destruct l as [|y l]; [destruct i; discriminate|].
  destruct i as [|i]; simpl in *; [exact H | exact (IH i l H)].
Qed.

(** The merged list of [LiteratureAgent.query] over the two tools:
    the search succeeds, and the paper at position [i] of the returned
    list is labelled ["PubMed"] when [i] is below [pubmed_count] and
    ["Google Scholar"] otherwise, whichever tools failed. *)
Theorem merged_source_labels :
  forall int_of results response user_query,
    exists r,
      query user_query (Returned (search_pubmed_articles int_of results))
        (Returned (ScholarTool.search_scholar_page response 6)) = LitSuccess r /\
      forall i p, nth_error (result_papers r) i = Some p ->
        dict_get p (KStr "source") =
          Some (PStr (if (i <? pubmed_count r)%nat then "PubMed" else "Google Scholar")).
Proof.
  intros int_of results response user_query. eexists. split; [reflexivity|].
  intros i p Hi. cbn [aggregate result_papers pubmed_count] in *.
  apply nth_error_firstn_some in Hi.
  set (pp := kept_papers (search_pubmed_articles int_of results)) in *.
  set (sp := kept_papers (ScholarTool.search_scholar_page response 6)) in *.
  assert (Hpp : forall q, In q pp -> dict_get q (KStr "source") = None /\
                                     keys_distinct (map fst q) = true).
  { intros q Hq. subst pp. unfold kept_papers in Hq.
    destruct results as [arts|e]; simpl in Hq; [|contradiction].
    apply parse_articles_in in Hq as [a [_ Ha]].
    destruct (parse_article_shape int_of a q Ha) as [H1 [H2 _]]. split; assumption. }
  assert (Hsp : forall q, In q sp -> dict_get q (KStr "source") = Some (PStr "Google Scholar")).
  { intros q Hq. subst sp. unfold kept_papers in Hq.
    destruct response as [[code items]|e]; simpl in Hq; [|contradiction].
    destruct (code =? 200)%Z; simpl in Hq; [|contradiction].
    apply ScholarToolProps.parse_items_in in Hq as [it [_ Hit]].
    unfold ScholarTool.parse_item in Hit.
    destruct (ScholarTool.title_tag it) as [[title href]|]; [|discriminate].
    injection Hit as <-. reflexivity. }
  destruct (Nat.ltb_spec i (length pp)) as [Hlt|Hge].
  - rewrite nth_error_app1 in Hi by (rewrite length_map; exact Hlt).
    rewrite nth_error_map in Hi.
    destruct (nth_error pp i) as [q|] eqn:Eq; [|discriminate]. simpl in Hi. injection Hi as <-.
    apply nth_error_In in Eq. destruct (Hpp q Eq) as [Hs Hd].
    unfold tag_pubmed. rewrite TagPubmedProps.dict_update_get, (TagPubmedProps.dict_get_rev q _ Hd), Hs.
    reflexivity.
  - rewrite nth_error_app2 in Hi by (rewrite length_map; exact Hge).
    apply nth_error_In in Hi. exact (Hsp p Hi).
Qed.

End PubmedToolProps.

(* ------------------------------------------------------------------ *)
(** ** The literature report printed by the supervisor *)
Module LiteratureOutputProps.
Import Json LiteratureAgent PubmedTool LiteratureOutput.

Lemma parse_article_title (int_of : string -> option Z) (a : article) (p : paper) :
  parse_article int_of a = Returned p ->
  exists t, dict_get p (KStr "title") = Some (PStr t).
Proof.
  intro H.
  destruct (PubmedToolProps.parse_article_inv int_of a p H)
    as [pd [y [ns [title [abstract [pmid [journal [_ [_ ->]]]]]]]]].
  eexists. reflexivity.
Qed.

Lemma forallb_firstn_pystr (n : nat) (l : list string) :
  forallb is_pystr (firstn n (map PStr l)) = true.
Proof.
  revert l. induction n as [|n IH]; intros [|x l]; simpl; try reflexivity. apply IH.
Qed.

Lemma format_papers_ok (l : list paper) :
  (forall p, In p l -> format_paper p = Returned tt) -> format_papers l = Returned tt.
Proof.
  induction l as [|p t IH]; intro H; simpl; [reflexivity|].
  rewrite (H p (or_introl eq_refl)). apply IH. intros q Hq. exact (H q (or_intror Hq)).
Qed.

Lemma in_firstn {A} (n : nat) (l : list A) (x : A) : In x (firstn n l) -> In x l.
Proof.
  revert l. induction n as [|n IH]; intros [|y l]; simpl; try contradiction.
  intros [H|H]; [left; exact H | right; exact (IH l H)].
Qed.

(** On what the two tools return, the supervisor's printing of the
    literature result never raises: every paper has a title, and every
    PubMed paper's authors are a list of strings. *)
Theorem literature_output_never_raises :
  forall int_of results response user_query,
    exists r,
      query user_query (Returned (search_pubmed_articles int_of results))
        (Returned (ScholarTool.search_scholar_page response 6)) = LitSuccess r /\
      format_literature_output r = Returned tt.
Proof.
  intros int_of results response user_query. eexists. split; [reflexivity|].
  unfold format_literature_output. apply format_papers_ok.
  intros p Hp. apply in_firstn in Hp. cbn [aggregate result_papers] in Hp.
  apply in_firstn in Hp. apply in_app_or in Hp as [Hp|Hp].
  - apply in_map_iff in Hp as [q [<- Hq]].
    unfold kept_papers in Hq. destruct results as [arts|e]; simpl in Hq; [|contradiction].
    apply PubmedToolProps.parse_articles_in in Hq as [a [_ Ha]].
    destruct (PubmedToolProps.parse_article_shape int_of a q Ha)
      as [Hs [Hd [[ns [Hau _]] _]]].
    destruct (parse_article_title int_of a q Ha) as [t Ht].
    unfold format_paper, tag_pubmed.
    rewrite !TagPubmedProps.dict_update_get, !(TagPubmedProps.dict_get_rev q _ Hd), Ht, Hs, Hau.
    cbn -[firstn]. rewrite forallb_firstn_pystr. reflexivity.
  - unfold kept_papers in Hp.
    destruct response as [[code items]|e]; simpl in Hp; [|contradiction].
    destruct (code =? 200)%Z; simpl in Hp; [|contradiction].
    apply ScholarToolProps.parse_items_in in Hp as [it [_ Hit]].
    unfold ScholarTool.parse_item in Hit.
    destruct (ScholarTool.title_tag it) as [[title href]|]; [|discriminate].
    injection Hit as <-. reflexivity.
Qed.

End LiteratureOutputProps.

(* ------------------------------------------------------------------ *)
(** ** The grading of [ClinicalReasoner.generate_recommendation] *)
Module ScorerProps.
Import ClinicalReasoner.

(** Stronger evidence never lowers the confidence score: with a p-value no
    larger, at least as many papers and a survival difference at least as
    large, the score is at least as high. *)
Theorem score_monotone :
  forall p1 p2 n1 n2 d1 d2,
    p1 <= p2 -> (n2 <= n1)%nat -> d2 <= d1 ->
    confidence_score (score p2 n2 d2) <= confidence_score (score p1 n1 d1).
Proof.
  intros p1 p2 n1 n2 d1 d2 Hp Hn Hd. unfold score.
  destruct (qltb p2 (1#100) && (10 <=? n2)%nat && Qle_bool 12 d2) eqn:S2.
  - apply andb_true_iff in S2 as [S2 C]. apply andb_true_iff in S2 as [A B].
    apply qltb_spec in A. apply Nat.leb_le in B. apply Qle_bool_iff in C.
    assert (S1 : qltb p1 (1#100) && (10 <=? n1)%nat && Qle_bool 12 d1 = true).
    { rewrite !andb_true_iff, qltb_spec, Nat.leb_le, Qle_bool_iff.
      repeat split; [lra|lia|lra]. }
    rewrite S1. apply Qle_refl.
  - destruct (qltb p2 (5#100) && (8 <=? n2)%nat) eqn:M2.
    + apply andb_true_iff in M2 as [A B].
      apply qltb_spec in A. apply Nat.leb_le in B.
      assert (M1 : qltb p1 (5#100) && (8 <=? n1)%nat = true).
      { rewrite andb_true_iff, qltb_spec, Nat.leb_le. split; [lra|lia]. }
      rewrite M1.
      destruct (qltb p1 (1#100) && (10 <=? n1)%nat && Qle_bool 12 d1);
        apply Qle_bool_iff; reflexivity.
    + destruct (qltb p1 (1#100) && (10 <=? n1)%nat && Qle_bool 12 d1);
        [|destruct (qltb p1 (5#100) && (8 <=? n1)%nat)];
        apply Qle_bool_iff; reflexivity.
Qed.

Lemma score_monotone_witness :
  (1#200) <= (3#100) /\ (9 <= 12)%nat /\ (5#1) <= (16#1) /\
  confidence_score (score (3#100) 9 (5#1)) <= confidence_score (score (1#200) 12 (16#1)).
Proof.
  assert (H1 : (1#200) <= (3#100)) by (apply Qle_bool_iff; reflexivity).
  assert (H2 : (9 <= 12)%nat) by lia.
  assert (H3 : (5#1) <= (16#1)) by (apply Qle_bool_iff; reflexivity).
  split; [exact H1|]. split; [exact H2|]. split; [exact H3|].
  exact (score_monotone (1#200) (3#100) 12 9 (16#1) (5#1) H1 H2 H3).
Defined.

End ScorerProps.
